(** * STL mesh decoding and volume estimation

    A shallow embedding of the classes [STLUtils] and
    [materialsFor3DPrinting] of [src/mastercraft_web/demo_server.py] and of
    the view that uses them, with the properties of the decoder and of the
    volume estimator that the specification states about them.

    Python values are modelled as follows.
    - [bytes] objects are lists of [Byte.byte];
    - [float] is IEEE 754 binary64, here the primitive type [float];
    - [str] is a list of Unicode code points;
    - a call either returns a value or raises an exception: [result];
    - a binary file object is its content and a position: [file_object];
    - the instance attribute [self.triangles] is the field [triangles] of
      the record [STLUtils], passed in and out of the methods that mutate it. *)

From Stdlib.Strings Require Import Byte Ascii String.
From Stdlib Require Import ZArith List Bool Lia.
From Stdlib Require Import Floats.
Import ListNotations.

(** ** Bytes *)

Definition bytes := list byte.

(** The integer value of a byte, between 0 and 255. *)
Definition byte_val (b : byte) : Z := Z.of_N (Byte.to_N b).

(** ** Exceptions and results *)

(** [struct_error n] is [struct.error] with the message "unpack requires a
    buffer of n bytes": the only exception the decoder can raise.  The three
    other constructors are the error kinds that section 7 of the
    specification names; no code path of the program constructs them. *)
Inductive exception : Type :=
| struct_error (required : nat)
| UnsupportedFormat
| TruncatedInput (triangles_read : nat)
| InvalidDensity.

Inductive result (A : Type) : Type :=
| Ok (a : A)
| Raise (e : exception).

Arguments Ok {A} a.
Arguments Raise {A} e.

(** ** The interpreter and the platform

    Two things that the source leaves to the machine it runs on.
    [struct.unpack("@I", ...)] uses the byte order of the platform
    ([sys.byteorder]); the size of a native [unsigned int] is 4 bytes.
    The builtin [sum] adds the items to the start value 0 from left to
    right; CPython 3.12 and later do so for floats with Neumaier's
    compensated summation. *)
Inductive byteorder : Type := little | big.

Inductive sum_algorithm : Type := left_to_right | compensated.

(** ** Binary file objects *)

Record file_object : Type := { content : bytes; pos : nat }.

(** [open(file, 'rb')]: the argument is the content of the named file. *)
Definition open (file : bytes) : file_object :=
  {| content := file; pos := 0 |}.

(** [f.read(n)]: at most [n] bytes from the current position, fewer at the
    end of the file; the position advances by what was read. *)
Definition f_read (n : nat) (f : file_object) : bytes * file_object :=
  let chunk := firstn n (skipn (pos f) (content f)) in
  (chunk, {| content := content f; pos := pos f + length chunk |}).

(** [f.seek(offset)]: an absolute position, also beyond the end. *)
Definition f_seek (offset : nat) (f : file_object) : file_object :=
  {| content := content f; pos := offset |}.

(** ** [struct.unpack] *)

(** Four bytes, least significant first, as an unsigned 32-bit integer. *)
Definition uint32_le (b0 b1 b2 b3 : byte) : Z :=
  Z.lor (byte_val b0)
    (Z.lor (Z.shiftl (byte_val b1) 8)
       (Z.lor (Z.shiftl (byte_val b2) 16) (Z.shiftl (byte_val b3) 24))).

(** The binary64 float [(-1)^s * m * 2^e], for [m] below [2^63]. *)
Definition float_of_parts (s : bool) (m e : Z) : float :=
  let f := Z.ldexp (of_uint63 (Uint63.of_Z m)) e in
  if s then (- f)%float else f.

(** The value of an IEEE 754 binary32 bit pattern, as the binary64 float
    that Python makes of it (the conversion is exact). *)
Definition float_of_bits32 (w : Z) : float :=
  let s := Z.testbit w 31 in
  let e := Z.land (Z.shiftr w 23) 255 in
  let m := Z.land w 8388607 in
  if (e =? 255)%Z then
    if (m =? 0)%Z then (if s then neg_infinity else infinity) else nan
  else if (e =? 0)%Z then float_of_parts s m (-149)
  else float_of_parts s (m + 8388608) (e - 150).

Definition unpack_f (b0 b1 b2 b3 : byte) : float :=
  float_of_bits32 (uint32_le b0 b1 b2 b3).

Definition point : Type := float * float * float.

(** [struct.unpack("<3f", buf)]: three little-endian binary32 floats from
    exactly 12 bytes. *)
Definition unpack_lt_3f (buf : bytes) : result point :=
  match buf with
  | [a0; a1; a2; a3; b0; b1; b2; b3; c0; c1; c2; c3] =>
      Ok (unpack_f a0 a1 a2 a3, unpack_f b0 b1 b2 b3, unpack_f c0 c1 c2 c3)
  | _ => Raise (struct_error 12)
  end.

(** [struct.unpack("@I", buf)[0]]: one native unsigned int from exactly 4
    bytes, in the byte order of the platform. *)
Definition unpack_at_I (bo : byteorder) (buf : bytes) : result Z :=
  match buf with
  | [b0; b1; b2; b3] =>
      Ok (match bo with
          | little => uint32_le b0 b1 b2 b3
          | big => uint32_le b3 b2 b1 b0
          end)
  | _ => Raise (struct_error 4)
  end.

(** ** [bytes.decode(errors='replace')]

    A Python [str] is a sequence of Unicode code points. *)

Definition str := list Z.

Definition str_of_string (s : string) : str :=
  map (fun a => Z.of_N (N_of_ascii a)) (list_ascii_of_string s).

(** U+FFFD, the replacement character. *)
Definition REPLACEMENT : Z := 65533.

Definition in_range (lo hi c : Z) : bool := ((lo <=? c) && (c <=? hi))%Z.

(** The second byte that a three-byte lead admits (no overlong forms, no
    surrogates) and that a four-byte lead admits (no overlong forms,
    nothing above U+10FFFF). *)
Definition second_of_3 (b c : Z) : bool :=
  if (b =? 224)%Z then in_range 160 191 c
  else if (b =? 237)%Z then in_range 128 159 c
  else in_range 128 191 c.

Definition second_of_4 (b c : Z) : bool :=
  if (b =? 240)%Z then in_range 144 191 c
  else if (b =? 244)%Z then in_range 128 143 c
  else in_range 128 191 c.

Definition cont (c : Z) : Z := Z.land c 63.

(** The UTF-8 decoder with the [replace] error handler, on byte values: a
    byte or a truncated sequence that cannot be decoded yields one U+FFFD
    and decoding resumes after the longest valid part of it.  It is total:
    no input makes it raise. *)
Fixpoint utf8_replace (s : list Z) : str :=
  match s with
  | [] => []
  | b :: rest =>
      if (b <? 128)%Z then b :: utf8_replace rest
      else if (b <? 194)%Z then REPLACEMENT :: utf8_replace rest
      else if (b <? 224)%Z then
        match rest with
        | [] => [REPLACEMENT]
        | c1 :: rest1 =>
            if in_range 128 191 c1
            then Z.lor (Z.shiftl (Z.land b 31) 6) (cont c1) :: utf8_replace rest1
            else REPLACEMENT :: utf8_replace rest
        end
      else if (b <? 240)%Z then
        match rest with
        | [] => [REPLACEMENT]
        | c1 :: rest1 =>
            if second_of_3 b c1 then
              match rest1 with
              | [] => [REPLACEMENT]
              | c2 :: rest2 =>
                  if in_range 128 191 c2
                  then Z.lor (Z.shiftl (Z.land b 15) 12)
                         (Z.lor (Z.shiftl (cont c1) 6) (cont c2))
                       :: utf8_replace rest2
                  else REPLACEMENT :: utf8_replace rest1
              end
            else REPLACEMENT :: utf8_replace rest
        end
      else if (b <? 245)%Z then
        match rest with
        | [] => [REPLACEMENT]
        | c1 :: rest1 =>
            if second_of_4 b c1 then
              match rest1 with
              | [] => [REPLACEMENT]
              | c2 :: rest2 =>
                  if in_range 128 191 c2 then
                    match rest2 with
                    | [] => [REPLACEMENT]
                    | c3 :: rest3 =>
                        if in_range 128 191 c3
                        then Z.lor (Z.shiftl (Z.land b 7) 18)
                               (Z.lor (Z.shiftl (cont c1) 12)
                                  (Z.lor (Z.shiftl (cont c2) 6) (cont c3)))
                             :: utf8_replace rest3
                        else REPLACEMENT :: utf8_replace rest2
                    end
                  else REPLACEMENT :: utf8_replace rest1
              end
            else REPLACEMENT :: utf8_replace rest
        end
      else REPLACEMENT :: utf8_replace rest
  end.

Definition decode_replace (raw : bytes) : str :=
  utf8_replace (map byte_val raw).

(** [s.startswith(prefix)] *)
Fixpoint startswith (s prefix : str) {struct prefix} : bool :=
  match prefix with
  | [] => true
  | p :: prefix' =>
      match s with
      | [] => false
      | c :: s' => (c =? p)%Z && startswith s' prefix'
      end
  end.

(** ** The decoder: class [STLUtils] *)

Definition triangle : Type := point * point * point.

Record STLUtils : Type := { triangles : list triangle }.

(** [STLUtils.__init__] *)
Definition STLUtils_init : STLUtils := {| triangles := [] |}.

(** [STLUtils.is_binary] *)
Definition is_binary (file : bytes) : bool :=
  let f := open file in
  let header := decode_replace (fst (f_read 80 f)) in
  negb (startswith header (str_of_string "solid"%string)).

(** Code that reads from an open file and may raise. *)
Definition reader (A : Type) : Type := file_object -> result (A * file_object).

Definition ret {A} (a : A) : reader A := fun f => Ok (a, f).

Definition bind {A B} (c : reader A) (k : A -> reader B) : reader B :=
  fun f => match c f with
           | Ok (a, f') => k a f'
           | Raise e => Raise e
           end.

Definition read (n : nat) : reader bytes := fun f => Ok (f_read n f).

Definition lift {A} (r : result A) : reader A :=
  fun f => match r with
           | Ok a => Ok (a, f)
           | Raise e => Raise e
           end.

Declare Scope reader_scope.
Delimit Scope reader_scope with reader.
Notation "x <- c ;; k" := (bind c (fun x => k))
  (at level 61, c at next level, right associativity) : reader_scope.
Notation "c ;;; k" := (bind c (fun _ => k))
  (at level 61, right associativity) : reader_scope.

(** [STLUtils.read_triangle] *)
Definition read_triangle : reader triangle :=
  (buf <- read 12 ;; lift (unpack_lt_3f buf) ;;;
   buf1 <- read 12 ;; p1 <- lift (unpack_lt_3f buf1) ;;
   buf2 <- read 12 ;; p2 <- lift (unpack_lt_3f buf2) ;;
   buf3 <- read 12 ;; p3 <- lift (unpack_lt_3f buf3) ;;
   read 2 ;;;
   ret (p1, p2, p3))%reader.

(** [self.triangles.append(t)] *)
Definition append (self : STLUtils) (t : triangle) : STLUtils :=
  {| triangles := triangles self ++ [t] |}.

(** The loop [for _ in range(length): self.triangles.append(self.read_triangle(f))].
    An exception leaves the loop with the triangles appended so far in place. *)
Fixpoint read_loop (n : nat) (f : file_object) (self : STLUtils)
  : result unit * STLUtils :=
  match n with
  | O => (Ok tt, self)
  | S n' =>
      match read_triangle f with
      | Raise e => (Raise e, self)
      | Ok (t, f') => read_loop n' f' (append self t)
      end
  end.

(** [STLUtils.read_stl]: the outcome of the call and the instance after it. *)
Definition read_stl (bo : byteorder) (file : bytes) (self : STLUtils)
  : result unit * STLUtils :=
  if is_binary file then
    let f := f_seek 80 (open file) in
    let (buf, f) := f_read 4 f in
    match unpack_at_I bo buf with
    | Raise e => (Raise e, self)
    | Ok length => read_loop (Z.to_nat length) f self
    end
  else (Ok tt, self).

(** ** The estimator *)

(** Indexing of a 3-tuple: [p[0]], [p[1]], [p[2]]. *)
Definition item0 (p : point) : float := fst (fst p).
Definition item1 (p : point) : float := snd (fst p).
Definition item2 (p : point) : float := snd p.

Local Open Scope float_scope.

(** [STLUtils.signed_volume_of_triangle] *)
Definition signed_volume_of_triangle (p1 p2 p3 : point) : float :=
  let v321 := item0 p3 * item1 p2 * item2 p1 in
  let v231 := item0 p2 * item1 p3 * item2 p1 in
  let v312 := item0 p3 * item1 p1 * item2 p2 in
  let v132 := item0 p1 * item1 p3 * item2 p2 in
  let v213 := item0 p2 * item1 p1 * item2 p3 in
  let v123 := item0 p1 * item1 p2 * item2 p3 in
  (1 / 6) * (- v321 + v231 + v312 - v132 - v213 + v123).

(** The float loop of CPython's compensated [sum]: [f] is the running
    total and [c] the running compensation, added at the end when it is
    neither zero nor infinite nor a NaN. *)
Fixpoint compensated_loop (f c : float) (xs : list float) : float :=
  match xs with
  | [] => if negb (c =? 0) && is_finite c then f + c else f
  | x :: xs' =>
      let t := f + x in
      let c' := if abs x <=? abs f then c + ((f - t) + x)
                else c + ((x - t) + f) in
      compensated_loop t c' xs'
  end.

(** The builtin [sum] on floats.  The start value is the integer 0, which
    the first addition converts to the float 0; the sum of no item is that
    integer, and its true division by 1000 is the float 0 as well. *)
Definition py_sum (alg : sum_algorithm) (xs : list float) : float :=
  match alg with
  | left_to_right => fold_left add xs 0
  | compensated =>
      match xs with
      | [] => 0
      | x :: xs' => compensated_loop (0 + x) 0 xs'
      end
  end.

(** [STLUtils.calculate_volume].  The body has no [raise] and float
    arithmetic does not raise (the one division is by 1000): the call
    always returns its pair. *)
Definition calculate_volume (alg : sum_algorithm) (self : STLUtils)
    (material_mass : float) : result (float * float) :=
  let total_volume :=
    py_sum alg (map (fun '(p1, p2, p3) => signed_volume_of_triangle p1 p2 p3)
                  (triangles self)) / 1000 in
  let total_mass := total_volume * material_mass in
  Ok (total_volume, total_mass).

Local Close Scope float_scope.


(** ** Auxiliary notions on file objects *)

(** The bytes from the position of an open file to its end. *)
Definition remaining (f : file_object) : bytes := skipn (pos f) (content f).

(** The file object after the five reads of [read_triangle]. *)
Definition after_facet (f : file_object) : file_object :=
  snd (f_read 2 (snd (f_read 12 (snd (f_read 12 (snd (f_read 12
    (snd (f_read 12 f))))))))).

(** ** The format and the formula in the words of the specification

    The definitions of this part are not taken from the source: they say
    what the specification says about the format (sections 4.1) and about
    the volume (section 4.2), and the theorems compare them with the code. *)

(** The marker bytes [b'solid'] of the textual variant. *)
Definition SOLID : bytes := [x73; x6f; x6c; x69; x64].

Fixpoint bytes_startswith (s prefix : bytes) {struct prefix} : bool :=
  match prefix with
  | [] => true
  | p :: prefix' =>
      match s with
      | [] => false
      | c :: s' => (byte_val c =? byte_val p)%Z && bytes_startswith s' prefix'
      end
  end.

(** The little-endian binary32 float at offset [off] of [r], and the point
    made of three consecutive ones. *)
Definition float_at (r : bytes) (off : nat) : float :=
  unpack_f (nth off r x00) (nth (off + 1) r x00)
           (nth (off + 2) r x00) (nth (off + 3) r x00).

Definition point_at (r : bytes) (off : nat) : point :=
  (float_at r off, float_at r (off + 4), float_at r (off + 8)).

(** A facet record starts with the normal (bytes 0 to 11); the three
    vertices follow at bytes 12, 24 and 36; the attribute field is bytes 48
    and 49. *)
Definition facet_vertices (r : bytes) : triangle :=
  (point_at r 12, point_at r 24, point_at r 36).

(** The triangles of the first [n] 50-byte records of [body]. *)
Fixpoint facets (n : nat) (body : bytes) : list triangle :=
  match n with
  | O => []
  | S n' => facet_vertices body :: facets n' (skipn 50 body)
  end.

(** One facet of the binary format, field by field. *)
Record facet : Type := {
  normal : bytes;
  vertex1 : bytes;
  vertex2 : bytes;
  vertex3 : bytes;
  attribute : bytes
}.

Definition facet_wf (fc : facet) : Prop :=
  length (normal fc) = 12 /\ length (vertex1 fc) = 12 /\
  length (vertex2 fc) = 12 /\ length (vertex3 fc) = 12 /\
  length (attribute fc) = 2.

Definition facet_bytes (fc : facet) : bytes :=
  normal fc ++ vertex1 fc ++ vertex2 fc ++ vertex3 fc ++ attribute fc.

Definition facet_triangle (fc : facet) : triangle :=
  (point_at (vertex1 fc) 0, point_at (vertex2 fc) 0, point_at (vertex3 fc) 0).

(** The formula of section 4.2 of the specification, read as a Python
    expression on floats (unary minus binds tighter than the product). *)
Definition signed_volume_formula (x1 y1 z1 x2 y2 z2 x3 y3 z3 : float) : float :=
  ((1 / 6) * (- x3 * y2 * z1 + x2 * y3 * z1 + x3 * y1 * z2
              - x1 * y3 * z2 - x2 * y1 * z3 + x1 * y2 * z3))%float.

(** The per-triangle signed volumes of a mesh, in order. *)
Definition signed_volumes (mesh : list triangle) : list float :=
  map (fun t => signed_volume_of_triangle (fst (fst t)) (snd (fst t)) (snd t)) mesh.

(** ** Sample streams *)

Definition byte_of_Z (z : Z) : byte :=
  match Byte.of_N (Z.to_N (z mod 256)) with
  | Some b => b
  | None => x00
  end.

(** [struct.pack("<I", w)] *)
Definition pack_lt_I (w : Z) : bytes :=
  [byte_of_Z w; byte_of_Z (Z.shiftr w 8);
   byte_of_Z (Z.shiftr w 16); byte_of_Z (Z.shiftr w 24)].

(** The binary32 bit patterns of 0.0 and 10.0, and a vertex from three
    bit patterns. *)
Definition bits_0 : Z := 0.
Definition bits_10 : Z := 1092616192.

Definition pack_vertex (x y z : Z) : bytes :=
  pack_lt_I x ++ pack_lt_I y ++ pack_lt_I z.

(** Two faces of the tetrahedron with corners at the origin and at 10 on
    each axis. *)
Definition facet_a : facet :=
  {| normal := pack_vertex bits_0 bits_0 bits_0;
     vertex1 := pack_vertex bits_0 bits_0 bits_0;
     vertex2 := pack_vertex bits_10 bits_0 bits_0;
     vertex3 := pack_vertex bits_0 bits_10 bits_0;
     attribute := [x00; x00] |}.

Definition facet_b : facet :=
  {| normal := pack_vertex bits_0 bits_0 bits_0;
     vertex1 := pack_vertex bits_10 bits_0 bits_0;
     vertex2 := pack_vertex bits_0 bits_10 bits_0;
     vertex3 := pack_vertex bits_0 bits_0 bits_10;
     attribute := [x00; x00] |}.

Definition triangle_a : triangle :=
  ((0, 0, 0), (10, 0, 0), (0, 10, 0))%float.

Definition triangle_b : triangle :=
  ((10, 0, 0), (0, 10, 0), (0, 0, 10))%float.

(** The second face with two vertices exchanged: inverted winding. *)
Definition triangle_b_inverted : triangle :=
  ((0, 0, 10), (0, 10, 0), (10, 0, 0))%float.

Definition binary_header : bytes := repeat x00 80.

(** A binary stream of two facets that declares two. *)
Definition stream_2_of_2 : bytes :=
  binary_header ++ pack_lt_I 2 ++ facet_bytes facet_a ++ facet_bytes facet_b.

(** A binary stream of two facets that declares five. *)
Definition stream_2_of_5 : bytes :=
  binary_header ++ pack_lt_I 5 ++ facet_bytes facet_a ++ facet_bytes facet_b.

(** A textual stream. *)
Definition stream_text : bytes := SOLID ++ repeat x20 95.

(** ** The material table: class [materialsFor3DPrinting] *)

Set Warnings "-inexact-float".

(** The Python objects that a caller can pass as a material identifier. *)
Inductive pyobj : Type :=
| PyInt (z : Z)
| PyBool (b : bool)
| PyFloat (x : float)
| PyStr (s : string)
| PyNone.

(** One value of [materials_dict]: [{'name': ..., 'mass': ...}]. *)
Record material : Type := { name : string; mass : float }.

(** [self.materials_dict], in the order of the literal; the keys are the
    integers 1 to 18. *)
Definition materials_dict : list (Z * material) :=
  [ (1%Z, {| name := "ABS"; mass := 1.04 |});
    (2%Z, {| name := "PLA"; mass := 1.25 |});
    (3%Z, {| name := "3k CFRP"; mass := 1.79 |});
    (4%Z, {| name := "Plexiglass"; mass := 1.18 |});
    (5%Z, {| name := "Alumide"; mass := 1.36 |});
    (6%Z, {| name := "Aluminum"; mass := 2.68 |});
    (7%Z, {| name := "Brass"; mass := 8.6 |});
    (8%Z, {| name := "Bronze"; mass := 9.0 |});
    (9%Z, {| name := "Copper"; mass := 9.0 |});
    (10%Z, {| name := "Gold_14K"; mass := 13.6 |});
    (11%Z, {| name := "Gold_18K"; mass := 15.6 |});
    (12%Z, {| name := "Polyamide_MJF"; mass := 1.01 |});
    (13%Z, {| name := "Polyamide_SLS"; mass := 0.95 |});
    (14%Z, {| name := "Rubber"; mass := 1.2 |});
    (15%Z, {| name := "Silver"; mass := 10.26 |});
    (16%Z, {| name := "Steel"; mass := 7.86 |});
    (17%Z, {| name := "Titanium"; mass := 4.41 |});
    (18%Z, {| name := "Resin"; mass := 1.2 |}) ].

(** A density between the least and the greatest of the table. *)
Definition density_ok (m : float) : bool :=
  (is_finite m && (0.95 <=? m) && (m <=? 15.6))%float.

(** [isinstance(x, int)]: [bool] is a subclass of [int]. *)
Definition isinstance_int (x : pyobj) : bool :=
  match x with
  | PyInt _ | PyBool _ => true
  | _ => false
  end.

(** The integer that an [int] object is as a dictionary key: [True] and
    [False] hash and compare as 1 and 0. *)
Definition int_key (x : pyobj) : option Z :=
  match x with
  | PyInt z => Some z
  | PyBool b => Some (if b then 1 else 0)%Z
  | _ => None
  end.

(** [d[k]] for an integer key: the value of the first (and only) item with
    that key. *)
Fixpoint dict_get (d : list (Z * material)) (k : Z) : option material :=
  match d with
  | [] => None
  | (k', v) :: d' => if (k' =? k)%Z then Some v else dict_get d' k
  end.

(** What a call of [get_material_mass] does: it returns a mass or raises
    [ValueError(f"Invalid material identifier: {material_identifier}")]. *)
Inductive mass_result : Type :=
| Mass (m : float)
| ValueError (material_identifier : pyobj).

(** [materialsFor3DPrinting.get_material_mass] *)
Definition get_material_mass (material_identifier : pyobj) : mass_result :=
  if isinstance_int material_identifier then
    match int_key material_identifier with
    | Some k =>
        match dict_get materials_dict k with
        | Some v => Mass (mass v)
        | None => ValueError material_identifier
        end
    | None => ValueError material_identifier
    end
  else ValueError material_identifier.

(** ** The view [calculate_mass_and_volume]

    The request as the view reads it: [request.files.get('file')], an
    uploaded file with its name and its bytes, and
    [request.form.get('material_id', type=int)], which is [None] when the
    field is missing or is not the text of an integer. *)

Record FileStorage : Type := { filename : string; stream : bytes }.

Record request : Type := {
  files_file : option FileStorage;
  form_material_id : option Z
}.

Inductive error_body : Type :=
| No_file_part
| No_selected_file
| Invalid_material_identifier (material_identifier : pyobj).

(** How far the view gets: a JSON error with status 400, an exception that
    leaves the view, or the call of [plot_stl] with the decoder and the
    values that the response is made of when plotting succeeds. *)
Inductive view_outcome : Type :=
| error_400 (body : error_body)
| unhandled (e : exception)
| calls_plot_stl (stl_utils : STLUtils) (material_id : Z)
    (total_volume total_mass : float).

(** [calculate_mass_and_volume], from its start to the call of [plot_stl]
    (lines 115 to 144), for an upload that [file.save] stores: [read_stl]
    then opens the uploaded bytes under [file_path].  Plotting, [os.remove]
    and [jsonify] are not part of the model. *)
Definition calculate_mass_and_volume (bo : byteorder) (alg : sum_algorithm)
    (req : request) : view_outcome :=
  match files_file req with
  | None => error_400 No_file_part
  | Some file =>
      let material_id :=
        match form_material_id req with Some z => z | None => 2%Z end in
      if (filename file =? "")%string then error_400 No_selected_file
      else
        let stl_utils := STLUtils_init in
        match read_stl bo (stream file) stl_utils with
        | (Raise e, _) => unhandled e
        | (Ok _, stl_utils) =>
            match get_material_mass (PyInt material_id) with
            | ValueError x => error_400 (Invalid_material_identifier x)
            | Mass material_mass =>
                match calculate_volume alg stl_utils material_mass with
                | Raise e => unhandled e
                | Ok (total_volume, total_mass) =>
                    calls_plot_stl stl_utils material_id total_volume total_mass
                end
            end
        end
  end.

(** A triangle one of whose nine coordinates is a NaN. *)
Definition point_has_nan (p : point) : bool :=
  is_nan (item0 p) || is_nan (item1 p) || is_nan (item2 p).

Definition triangle_has_nan (t : triangle) : bool :=
  point_has_nan (fst (fst t)) || point_has_nan (snd (fst t))
  || point_has_nan (snd t).

(** What [read_stl] does on a stream treated as binary whose count field
    declares [n] triangles, in terms of the bytes [body] after the count:
    the outcome and the triangles appended. *)
Definition binary_outcome (n : nat) (body : bytes) : result unit * list triangle :=
  if (n =? 0) || (50 * n <=? length body + 2)
  then (Ok tt, facets n body)
  else (Raise (struct_error 12), facets ((length body + 2) / 50) body).

(** More sample data: a facet whose first coordinate is a NaN, and
    requests. *)
Definition bits_nan : Z := 2143289344.

Definition facet_nan : facet :=
  {| normal := pack_vertex bits_0 bits_0 bits_0;
     vertex1 := pack_vertex bits_nan bits_0 bits_0;
     vertex2 := pack_vertex bits_10 bits_0 bits_0;
     vertex3 := pack_vertex bits_0 bits_10 bits_0;
     attribute := [x00; x00] |}.

Definition stream_nan : bytes :=
  binary_header ++ pack_lt_I 2 ++ facet_bytes facet_a ++ facet_bytes facet_nan.

Definition triangle_nan : triangle :=
  ((nan, 0, 0), (10, 0, 0), (0, 10, 0))%float.

Definition text_header : bytes := SOLID ++ repeat x20 75.

Definition request_of (fname : string) (data : bytes) (id : option Z) : request :=
  {| files_file := Some {| filename := fname; stream := data |};
     form_material_id := id |}.

(** Two more triangles, with the signed volumes 1e16 and 1: the plain sum
    of 1e16, 1 and 1 loses both ones to rounding, the compensated sum keeps
    them. *)
Definition triangle_big : triangle :=
  ((60000000, 0, 0), (0, 1000000000, 0), (0, 0, 1))%float.

Definition triangle_unit : triangle :=
  ((6, 0, 0), (0, 1, 0), (0, 0, 1))%float.

(** ** The run of [read_stl], statement by statement

    The points of control of [read_stl]: before the test of [is_binary]
    (line 69), before the count is unpacked from the file opened and
    positioned at byte 80 (line 72), at the head of the loop with the
    iterations of [range(length)] that are left (line 73), and after the
    call, which has returned or raised. *)
Inductive control : Type :=
| at_is_binary
| at_unpack_count (f : file_object)
| at_for (iterations : nat) (f : file_object)
| returned
| raised (e : exception).

Definition configuration : Type := control * STLUtils.

(** One statement of [read_stl] on the stream [file]. *)
Inductive step (bo : byteorder) (file : bytes)
  : configuration -> configuration -> Prop :=
| step_textual self :
    is_binary file = false ->
    step bo file (at_is_binary, self) (returned, self)
| step_binary self :
    is_binary file = true ->
    step bo file (at_is_binary, self)
      (at_unpack_count (f_seek 80 (open file)), self)
| step_count f self length :
    unpack_at_I bo (fst (f_read 4 f)) = Ok length ->
    step bo file (at_unpack_count f, self)
      (at_for (Z.to_nat length) (snd (f_read 4 f)), self)
| step_count_raises f self e :
    unpack_at_I bo (fst (f_read 4 f)) = Raise e ->
    step bo file (at_unpack_count f, self) (raised e, self)
| step_for_exhausted f self :
    step bo file (at_for 0 f, self) (returned, self)
| step_for_append n f self t f' :
    read_triangle f = Ok (t, f') ->
    step bo file (at_for (S n) f, self) (at_for n f', append self t)
| step_for_raises n f self e :
    read_triangle f = Raise e ->
    step bo file (at_for (S n) f, self) (raised e, self).

(** Zero or more statements. *)
Inductive run (bo : byteorder) (file : bytes)
  : configuration -> configuration -> Prop :=
| run_here c : run bo file c c
| run_more c c' c'' :
    step bo file c c' -> run bo file c' c'' -> run bo file c c''.


(** The configuration in which a call with the result [r] is over. *)
Definition outcome_configuration (r : result unit * STLUtils) : configuration :=
  (match fst r with Ok _ => returned | Raise e => raised e end, snd r).

(** * Properties *)

(** ** Floats *)

Section FloatFacts.
Local Open Scope float_scope.

Lemma SFopp_binary_round_aux (s : bool) (m e : Z) (l : location) :
  SFopp (binary_round_aux prec emax s m e l) = binary_round_aux prec emax (negb s) m e l.
Proof.
  unfold binary_round_aux.
  destruct (shr_fexp prec emax m e l) as [mrs' e'].
  destruct (shr_fexp prec emax _ e' loc_Exact) as [mrs'' e''].
  destruct (shr_m mrs'') as [|q|q]; try reflexivity.
  destruct (e'' <=? emax - prec)%Z; reflexivity.
Qed.

Lemma SFopp_SFmul (x y : spec_float) :
  SFopp (SF64mul x y) = SF64mul (SFopp x) y.
Proof.
  unfold SF64mul.
  destruct x as [sx|sx| |sx mx ex], y as [sy|sy| |sy my ey]; simpl;
    rewrite ?SFopp_binary_round_aux, ?negb_xorb_l; reflexivity.
Qed.

Lemma opp_mul_l (a b : float) : - (a * b) = (- a) * b.
Proof.
  apply Prim2SF_inj.
  rewrite opp_spec, !mul_spec, opp_spec.
  apply SFopp_SFmul.
Qed.

Lemma Prim2SF_zero : Prim2SF 0 = S754_zero false.
Proof. reflexivity. Qed.

Lemma Prim2SF_infinity : Prim2SF infinity = S754_infinity false.
Proof. reflexivity. Qed.

Lemma is_finite_SF (d : float) :
  is_finite d = true ->
  (exists s, Prim2SF d = S754_zero s) \/ (exists s m e, Prim2SF d = S754_finite s m e).
Proof.
  unfold is_finite, is_nan, is_infinity.
  rewrite !eqb_spec, abs_spec, Prim2SF_infinity.
  destruct (Prim2SF d) as [s|s| |s m e] eqn:E; intros H.
  - left; now exists s.
  - destruct s; discriminate H.
  - discriminate H.
  - right; now exists s, m, e.
Qed.

Lemma zero_mul_finite (d : float) :
  is_finite d = true -> (0 * d =? 0) = true.
Proof.
  intros H. rewrite eqb_spec, mul_spec, Prim2SF_zero.
  destruct (is_finite_SF d H) as [[s ->]|(s & m & e & ->)]; reflexivity.
Qed.
End FloatFacts.

(** ** Reading from a file object *)

Section FileReading.

Lemma skipn_length_firstn (A : Type) (n : nat) (l : list A) :
  skipn (length (firstn n l)) l = skipn n l.
Proof.
  rewrite length_firstn.
  destruct (Nat.le_ge_cases n (length l)) as [H|H].
  - now rewrite Nat.min_l.
  - rewrite Nat.min_r by assumption.
    now rewrite skipn_all, skipn_all2.
Qed.

Lemma remaining_f_read (n : nat) (f : file_object) :
  remaining (snd (f_read n f)) = skipn n (remaining f).
Proof.
  unfold remaining, f_read; simpl.
  rewrite Nat.add_comm, <- skipn_skipn.
  apply skipn_length_firstn.
Qed.

Lemma fst_f_read (n : nat) (f : file_object) :
  fst (f_read n f) = firstn n (remaining f).
Proof. reflexivity. Qed.

Lemma remaining_after_facet (f : file_object) :
  remaining (after_facet f) = skipn 50 (remaining f).
Proof.
  unfold after_facet. rewrite !remaining_f_read, !skipn_skipn. reflexivity.
Qed.

Lemma unpack_lt_3f_short (buf : bytes) :
  length buf <> 12 -> unpack_lt_3f buf = Raise (struct_error 12).
Proof.
  intros H.
  do 13 (destruct buf as [|? buf]; try reflexivity).
  simpl in H. lia.
Qed.

Lemma unpack_lt_3f_at (l : bytes) (k : nat) :
  k + 12 <= length l ->
  unpack_lt_3f (firstn 12 (skipn k l)) = Ok (point_at l k).
Proof.
  intros H.
  assert (L : 12 <= length (skipn k l)) by (rewrite length_skipn; lia).
  unfold point_at, float_at.
  rewrite <- !Nat.add_assoc; simpl Nat.add.
  rewrite <- (Nat.add_0_r k) at 2.
  rewrite <- !nth_skipn.
  destruct (skipn k l) as [|a0 [|a1 [|a2 [|a3 [|b0 [|b1 [|b2 [|b3 [|c0 [|c1 [|c2 [|c3 r]]]]]]]]]]]];
    simpl in L; try lia.
  reflexivity.
Qed.

Lemma bind_read (B : Type) (n : nat) (k : bytes -> reader B) (f : file_object) :
  bind (read n) k f = k (firstn n (remaining f)) (snd (f_read n f)).
Proof. reflexivity. Qed.

Lemma bind_lift (A B : Type) (r : result A) (k : A -> reader B) (f : file_object) :
  bind (lift r) k f = match r with Ok a => k a f | Raise e => Raise e end.
Proof. destruct r; reflexivity. Qed.

Lemma read_triangle_eq (f : file_object) :
  read_triangle f =
  match unpack_lt_3f (firstn 12 (remaining f)) with
  | Raise e => Raise e
  | Ok _ =>
    match unpack_lt_3f (firstn 12 (skipn 12 (remaining f))) with
    | Raise e => Raise e
    | Ok p1 =>
      match unpack_lt_3f (firstn 12 (skipn 24 (remaining f))) with
      | Raise e => Raise e
      | Ok p2 =>
        match unpack_lt_3f (firstn 12 (skipn 36 (remaining f))) with
        | Raise e => Raise e
        | Ok p3 => Ok ((p1, p2, p3), after_facet f)
        end
      end
    end
  end.
Proof.
  unfold read_triangle, after_facet.
  rewrite bind_read, bind_lift.
  destruct (unpack_lt_3f (firstn 12 (remaining f))); [|reflexivity].
  rewrite bind_read, bind_lift, remaining_f_read.
  destruct (unpack_lt_3f (firstn 12 (skipn 12 (remaining f)))); [|reflexivity].
  rewrite bind_read, bind_lift, !remaining_f_read, skipn_skipn.
  change (12 + 12) with 24.
  destruct (unpack_lt_3f (firstn 12 (skipn 24 (remaining f)))); [|reflexivity].
  rewrite bind_read, bind_lift, !remaining_f_read, !skipn_skipn.
  change (12 + 12 + 12) with 36.
  destruct (unpack_lt_3f (firstn 12 (skipn 36 (remaining f)))); [|reflexivity].
  rewrite bind_read. reflexivity.
Qed.

Lemma read_triangle_ok (f : file_object) :
  48 <= length (remaining f) ->
  read_triangle f = Ok (facet_vertices (remaining f), after_facet f).
Proof.
  intros H. rewrite read_triangle_eq.
  change (firstn 12 (remaining f)) with (firstn 12 (skipn 0 (remaining f))).
  rewrite !unpack_lt_3f_at by lia.
  reflexivity.
Qed.

Lemma read_triangle_short (f : file_object) :
  length (remaining f) < 48 ->
  read_triangle f = Raise (struct_error 12).
Proof.
  intros H. rewrite read_triangle_eq.
  change (firstn 12 (remaining f)) with (firstn 12 (skipn 0 (remaining f))).
  destruct (Nat.le_gt_cases 12 (length (remaining f))) as [H0|H0];
    [rewrite (unpack_lt_3f_at (remaining f) 0) by lia
    |rewrite unpack_lt_3f_short; [reflexivity|rewrite length_firstn, length_skipn; lia]].
  destruct (Nat.le_gt_cases 24 (length (remaining f))) as [H1|H1];
    [rewrite (unpack_lt_3f_at (remaining f) 12) by lia
    |rewrite unpack_lt_3f_short; [reflexivity|rewrite length_firstn, length_skipn; lia]].
  destruct (Nat.le_gt_cases 36 (length (remaining f))) as [H2|H2];
    [rewrite (unpack_lt_3f_at (remaining f) 24) by lia
    |rewrite unpack_lt_3f_short; [reflexivity|rewrite length_firstn, length_skipn; lia]].
  rewrite unpack_lt_3f_short; [reflexivity|rewrite length_firstn, length_skipn; lia].
Qed.

End FileReading.

(** ** The loop of [read_stl] *)

Section Loop.

Lemma facets_length (n : nat) : forall body, length (facets n body) = n.
Proof. induction n as [|n IH]; intros body; simpl; [reflexivity|now rewrite IH]. Qed.

Lemma STLUtils_eta (self : STLUtils) (l : list triangle) :
  l = triangles self -> {| triangles := l |} = self.
Proof. destruct self; simpl; now intros ->. Qed.

(** Closes [(r, self) = (r, {| triangles := triangles self ++ [] |})]. *)
Ltac nothing_appended := f_equal; symmetry; apply STLUtils_eta, app_nil_r.

Lemma read_loop_complete (n : nat) : forall f self,
  n = 0 \/ 50 * n <= length (remaining f) + 2 ->
  read_loop n f self =
  (Ok tt, {| triangles := triangles self ++ facets n (remaining f) |}).
Proof.
  induction n as [|n IH]; intros f self H; simpl.
  - nothing_appended.
  - rewrite read_triangle_ok by lia.
    rewrite IH.
    + rewrite remaining_after_facet. simpl. now rewrite <- app_assoc.
    + rewrite remaining_after_facet, length_skipn. lia.
Qed.

Lemma read_loop_truncated (n : nat) : forall f self k,
  k < n ->
  50 * k <= length (remaining f) + 2 < 50 * (k + 1) ->
  read_loop n f self =
  (Raise (struct_error 12),
   {| triangles := triangles self ++ facets k (remaining f) |}).
Proof.
  induction n as [|n IH]; intros f self k Hk H; [lia|].
  simpl. destruct k as [|k].
  - rewrite read_triangle_short by lia.
    nothing_appended.
  - rewrite read_triangle_ok by lia.
    rewrite (IH _ _ k).
    + rewrite remaining_after_facet. simpl. now rewrite <- app_assoc.
    + lia.
    + rewrite remaining_after_facet, length_skipn. lia.
Qed.

Lemma read_loop_app (n : nat) : forall f self,
  read_loop n f self =
  (fst (read_loop n f STLUtils_init),
   {| triangles := triangles self ++ triangles (snd (read_loop n f STLUtils_init)) |}).
Proof.
  induction n as [|n IH]; intros f self; simpl.
  - nothing_appended.
  - destruct (read_triangle f) as [[t f']|e]; simpl.
    + rewrite (IH f' (append self t)), (IH f' (append STLUtils_init t)).
      simpl. now rewrite <- app_assoc.
    + nothing_appended.
Qed.

Lemma remaining_count (file : bytes) :
  remaining (snd (f_read 4 (f_seek 80 (open file)))) = skipn 84 file.
Proof.
  rewrite remaining_f_read. unfold remaining; simpl pos; simpl content.
  now rewrite skipn_skipn.
Qed.

Lemma read_stl_binary (bo : byteorder) (file : bytes) (self : STLUtils) :
  is_binary file = true ->
  read_stl bo file self =
  match unpack_at_I bo (firstn 4 (skipn 80 file)) with
  | Raise e => (Raise e, self)
  | Ok n => read_loop (Z.to_nat n) (snd (f_read 4 (f_seek 80 (open file)))) self
  end.
Proof. intros H. unfold read_stl. rewrite H. reflexivity. Qed.

Lemma read_stl_text (bo : byteorder) (file : bytes) (self : STLUtils) :
  is_binary file = false -> read_stl bo file self = (Ok tt, self).
Proof. intros H. unfold read_stl. now rewrite H. Qed.

Lemma read_stl_app (bo : byteorder) (file : bytes) (self : STLUtils) :
  read_stl bo file self =
  (fst (read_stl bo file STLUtils_init),
   {| triangles := triangles self ++ triangles (snd (read_stl bo file STLUtils_init)) |}).
Proof.
  destruct (is_binary file) eqn:B.
  - rewrite !read_stl_binary by assumption.
    destruct (unpack_at_I bo _) as [n|e].
    + apply read_loop_app.
    + simpl; nothing_appended.
  - rewrite !read_stl_text by assumption.
    simpl; nothing_appended.
Qed.

End Loop.

(** ** Format detection *)

Section Detection.


Local Open Scope Z_scope.

Lemma byte_val_range (b : byte) : 0 <= byte_val b < 256.
Proof.
  unfold byte_val. pose proof (Byte.to_N_bounded b) as H. lia.
Qed.

Lemma byte_val_inj (a b : byte) : byte_val a = byte_val b -> a = b.
Proof.
  unfold byte_val. intros H. apply N2Z.inj in H.
  apply (f_equal Byte.of_N) in H. rewrite !Byte.of_to_N in H. congruence.
Qed.

Lemma land_le_r (a b : Z) : 0 <= a -> 0 <= b -> Z.land a b <= b.
Proof.
  intros Ha Hb.
  rewrite <- (Z2N.id a), <- (Z2N.id b) by assumption.
  rewrite <- N2Z.inj_land. apply N2Z.inj_le, N.land_le_r.
Qed.

Lemma lor_ge_l (a b : Z) : 0 <= a -> 0 <= b -> a <= Z.lor a b.
Proof.
  intros Ha Hb.
  pose proof (Z.add_lor_land a b). pose proof (land_le_r a b Ha Hb). lia.
Qed.

Lemma lor_ge_r (a b : Z) : 0 <= a -> 0 <= b -> b <= Z.lor a b.
Proof. intros Ha Hb. rewrite Z.lor_comm. now apply lor_ge_l. Qed.

Lemma land_low (a : Z) (n : Z) (m : Z) :
  0 <= n -> m = Z.ones n -> Z.land a m = a mod 2 ^ n.
Proof. intros Hn ->. now apply Z.land_ones. Qed.

Lemma in_range_true (lo hi c : Z) : in_range lo hi c = true -> lo <= c <= hi.
Proof. unfold in_range. rewrite andb_true_iff, !Z.leb_le. tauto. Qed.

(** The code point of a lead byte and its continuation bytes is at least
    the lead's payload shifted into place. *)
Lemma codepoint_ge (hi lo sh : Z) :
  0 <= hi -> 0 <= lo -> 0 <= sh -> hi * 2 ^ sh <= Z.lor (Z.shiftl hi sh) lo.
Proof.
  intros H1 H2 H3. rewrite <- Z.shiftl_mul_pow2 by assumption.
  apply lor_ge_l; [now apply Z.shiftl_nonneg|assumption].
Qed.

Lemma cont_range (c : Z) : 0 <= cont c < 64.
Proof.
  unfold cont. rewrite (land_low c 6 63) by (reflexivity || lia).
  apply Z.mod_pos_bound. reflexivity.
Qed.

Lemma utf8_replace_ascii (b : Z) (rest : list Z) :
  b < 128 -> utf8_replace (b :: rest) = b :: utf8_replace rest.
Proof.
  intros H. apply Z.ltb_lt in H. simpl. now rewrite H.
Qed.

Lemma utf8_replace_high (b : Z) (rest : list Z) :
  128 <= b < 256 ->
  exists c tl, utf8_replace (b :: rest) = c :: tl /\ 128 <= c.
Proof.
  intros H.
  assert (R : 128 <= REPLACEMENT) by (unfold REPLACEMENT; lia).
  cbn [utf8_replace].
  destruct (Z.ltb_spec b 128) as [?|_]; [lia|].
  destruct (Z.ltb_spec b 194) as [_|H194]; [eauto|].
  destruct (Z.ltb_spec b 224) as [H224|H224].
  { destruct rest as [|c1 rest1]; [eauto|].
    destruct (in_range 128 191 c1); [|eauto].
    eexists _, _; split; [reflexivity|].
    pose proof (cont_range c1).
    pose proof (codepoint_ge (Z.land b 31) (cont c1) 6) as G.
    rewrite (land_low b 5 31) in * by (reflexivity || lia).
    assert (2 <= b mod 2 ^ 5) by (change (2 ^ 5) with 32; Z.div_mod_to_equations; lia).
    change (2 ^ 6) with 64 in G. lia. }
  destruct (Z.ltb_spec b 240) as [H240|H240].
  { destruct rest as [|c1 rest1]; [eauto|].
    destruct (second_of_3 b c1) eqn:S3; [|eauto].
    destruct rest1 as [|c2 rest2]; [eauto|].
    destruct (in_range 128 191 c2); [|eauto].
    eexists _, _; split; [reflexivity|].
    pose proof (cont_range c1). pose proof (cont_range c2).
    assert (L : 0 <= Z.lor (Z.shiftl (cont c1) 6) (cont c2)).
    { apply Z.lor_nonneg; split; [apply Z.shiftl_nonneg|]; lia. }
    pose proof (codepoint_ge (Z.land b 15) _ 12 ltac:(apply Z.land_nonneg; lia) L ltac:(lia)) as G.
    pose proof (lor_ge_r (Z.shiftl (Z.land b 15) 12) _
                  ltac:(apply Z.shiftl_nonneg, Z.land_nonneg; lia) L) as G'.
    pose proof (codepoint_ge (cont c1) (cont c2) 6 ltac:(lia) ltac:(lia) ltac:(lia)) as G2.
    rewrite (land_low b 4 15) in * by (reflexivity || lia).
    change (2 ^ 12) with 4096 in G. change (2 ^ 6) with 64 in G2.
    unfold second_of_3 in S3.
    destruct (Z.eqb_spec b 224) as [->|N224].
    - apply in_range_true in S3. unfold cont in *.
      rewrite (land_low c1 6 63) in * by (reflexivity || lia).
      change (2 ^ 6) with 64 in *.
      assert (32 <= c1 mod 64) by (Z.div_mod_to_equations; lia). lia.
    - assert (1 <= b mod 2 ^ 4) by (change (2 ^ 4) with 16; Z.div_mod_to_equations; lia).
      lia. }
  destruct (Z.ltb_spec b 245) as [H245|H245]; [|eauto].
  destruct rest as [|c1 rest1]; [eauto|].
  destruct (second_of_4 b c1) eqn:S4; [|eauto].
  destruct rest1 as [|c2 rest2]; [eauto|].
  destruct (in_range 128 191 c2); [|eauto].
  destruct rest2 as [|c3 rest3]; [eauto|].
  destruct (in_range 128 191 c3); [|eauto].
  eexists _, _; split; [reflexivity|].
  pose proof (cont_range c1). pose proof (cont_range c2). pose proof (cont_range c3).
  assert (L2 : 0 <= Z.lor (Z.shiftl (cont c2) 6) (cont c3)).
  { apply Z.lor_nonneg; split; [apply Z.shiftl_nonneg|]; lia. }
  assert (L1 : 0 <= Z.lor (Z.shiftl (cont c1) 12) (Z.lor (Z.shiftl (cont c2) 6) (cont c3))).
  { apply Z.lor_nonneg; split; [apply Z.shiftl_nonneg|]; lia. }
  pose proof (codepoint_ge (Z.land b 7) _ 18 ltac:(apply Z.land_nonneg; lia) L1 ltac:(lia)) as G.
  pose proof (lor_ge_r (Z.shiftl (Z.land b 7) 18) _
                ltac:(apply Z.shiftl_nonneg, Z.land_nonneg; lia) L1) as G'.
  pose proof (codepoint_ge (cont c1) _ 12 ltac:(lia) L2 ltac:(lia)) as G2.
  rewrite (land_low b 3 7) in * by (reflexivity || lia).
  change (2 ^ 18) with 262144 in G. change (2 ^ 12) with 4096 in G2.
  unfold second_of_4 in S4.
  destruct (Z.eqb_spec b 240) as [->|N240].
  - apply in_range_true in S4. unfold cont in *.
    rewrite (land_low c1 6 63) in * by (reflexivity || lia).
    change (2 ^ 6) with 64 in *.
    assert (16 <= c1 mod 64) by (Z.div_mod_to_equations; lia). lia.
  - assert (1 <= b mod 2 ^ 3) by (change (2 ^ 3) with 8; Z.div_mod_to_equations; lia).
    lia.
Qed.

Lemma startswith_ascii_step (b p : byte) (rest : bytes) (prefix : str) :
  byte_val p < 128 ->
  startswith (decode_replace (b :: rest)) (byte_val p :: prefix) =
  (byte_val b =? byte_val p) && startswith (decode_replace rest) prefix.
Proof.
  intros Hp. unfold decode_replace. cbn [map].
  pose proof (byte_val_range b) as Hb.
  destruct (Z.lt_ge_cases (byte_val b) 128) as [H|H].
  - now rewrite utf8_replace_ascii.
  - destruct (utf8_replace_high (byte_val b) (map byte_val rest)) as (c & tl & -> & Hc);
      [lia|].
    cbn [startswith].
    replace (c =? byte_val p) with false by (symmetry; apply Z.eqb_neq; lia).
    replace (byte_val b =? byte_val p) with false by (symmetry; apply Z.eqb_neq; lia).
    reflexivity.
Qed.

Lemma startswith_decode (raw prefix : bytes) :
  Forall (fun p => byte_val p < 128) prefix ->
  startswith (decode_replace raw) (map byte_val prefix) = bytes_startswith raw prefix.
Proof.
  intros H. revert raw. induction H as [|p prefix Hp _ IH]; intros raw.
  - reflexivity.
  - destruct raw as [|b rest]; [reflexivity|].
    cbn [map bytes_startswith].
    rewrite startswith_ascii_step by assumption. now rewrite IH.
Qed.

Lemma bytes_startswith_iff (s prefix : bytes) :
  bytes_startswith s prefix = true <-> exists rest, s = prefix ++ rest.
Proof.
  revert s. induction prefix as [|p prefix IH]; intros s; simpl.
  - split; [eauto|reflexivity].
  - destruct s as [|c s']; [split; [discriminate|intros [r Hr]; discriminate]|].
    rewrite andb_true_iff, Z.eqb_eq, IH. split.
    + intros [Hc [rest ->]]. apply byte_val_inj in Hc. subst. eauto.
    + intros [rest Hr]. injection Hr as -> ->. eauto.
Qed.

Lemma bytes_startswith_firstn (n : nat) (s prefix : bytes) :
  (length prefix <= n)%nat ->
  bytes_startswith (firstn n s) prefix = bytes_startswith s prefix.
Proof.
  revert n s. induction prefix as [|p prefix IH]; intros n s H; [reflexivity|].
  simpl in H. destruct n as [|n]; [lia|].
  destruct s as [|c s']; [reflexivity|]. simpl.
  rewrite IH by lia. reflexivity.
Qed.

Lemma solid_marker : str_of_string "solid" = map byte_val SOLID.
Proof. reflexivity. Qed.

Lemma is_binary_bytes (file : bytes) :
  is_binary file = negb (bytes_startswith file SOLID).
Proof.
  unfold is_binary. rewrite fst_f_read. unfold remaining, open; cbn [pos content skipn].
  rewrite solid_marker, startswith_decode.
  - now rewrite bytes_startswith_firstn by (simpl; lia).
  - repeat constructor.
Qed.

End Detection.

(** ** The estimator *)

Section Estimator.
Local Open Scope float_scope.

Lemma calculate_volume_eq (alg : sum_algorithm) (self : STLUtils) (d : float) :
  calculate_volume alg self d =
  Ok (py_sum alg (signed_volumes (triangles self)) / 1000,
      py_sum alg (signed_volumes (triangles self)) / 1000 * d).
Proof.
  unfold calculate_volume, signed_volumes.
  rewrite (map_ext _ (fun t => signed_volume_of_triangle (fst (fst t)) (snd (fst t)) (snd t)))
    by (intros [[p1 p2] p3]; reflexivity).
  reflexivity.
Qed.

Lemma py_sum_nil (alg : sum_algorithm) : py_sum alg [] = 0.
Proof. destruct alg; reflexivity. Qed.

Lemma calculate_volume_empty (alg : sum_algorithm) (d : float) :
  calculate_volume alg STLUtils_init d = Ok (0, 0 * d).
Proof.
  rewrite calculate_volume_eq. simpl. rewrite py_sum_nil. reflexivity.
Qed.

(** C3: for every triangle with vertices p1 = (x1, y1, z1), p2 = (x2, y2, z2)
    and p3 = (x3, y3, z3), the signed volume that the estimator computes for
    it is the float value of
    (1/6) * (-x3*y2*z1 + x2*y3*z1 + x3*y1*z2 - x1*y3*z2 - x2*y1*z3 + x1*y2*z3). *)
Theorem signed_volume_of_triangle_formula (x1 y1 z1 x2 y2 z2 x3 y3 z3 : float) :
  signed_volume_of_triangle (x1, y1, z1) (x2, y2, z2) (x3, y3, z3) =
  signed_volume_formula x1 y1 z1 x2 y2 z2 x3 y3 z3.
Proof.
  unfold signed_volume_of_triangle, signed_volume_formula, item0, item1, item2.
  cbn [fst snd].
  now rewrite !opp_mul_l.
Qed.

Lemma compensated_loop_plain (xs : list float) : forall f c,
  exists c', compensated_loop f c xs =
             if negb (c' =? 0) && is_finite c'
             then fold_left add xs f + c' else fold_left add xs f.
Proof.
  induction xs as [|x xs IH]; intros f c; simpl.
  - now exists c.
  - apply IH.
Qed.

Lemma py_sum_compensated_plain (xs : list float) :
  exists c, py_sum compensated xs =
            if negb (c =? 0) && is_finite c
            then fold_left add xs 0 + c else fold_left add xs 0.
Proof.
  destruct xs as [|x xs]; simpl.
  - now exists 0.
  - apply compensated_loop_plain.
Qed.

(** C4: for every mesh and every density, the returned volume is the sum
    of the signed volumes of the triangles divided by 1000 and the returned
    mass is that volume times the density.  The sum is the one of the
    builtin [sum]: the signed volumes added to 0 from left to right, in
    CPython 3.12 and later with the compensation of the rounding errors
    added at the end.  No absolute value is taken: three equal faces give
    three times the volume of one, a face and its inverted copy cancel, and
    an inverted face alone gives a negative volume. *)
Theorem calculate_volume_sum_div_1000 (self : STLUtils) (density : float) :
  let plain := fold_left add (signed_volumes (triangles self)) 0 in
  calculate_volume left_to_right self density
  = Ok (plain / 1000, plain / 1000 * density)
  /\ (exists c,
        let total := if negb (c =? 0) && is_finite c then plain + c else plain in
        calculate_volume compensated self density
        = Ok (total / 1000, total / 1000 * density))
  /\ (forall alg,
        calculate_volume alg
          {| triangles := [triangle_b; triangle_b; triangle_b] |} density
        = Ok (0.5, 0.5 * density))
  /\ (forall alg,
        calculate_volume alg
          {| triangles := [triangle_b; triangle_a; triangle_b_inverted] |} density
        = Ok (0, 0 * density))
  /\ (forall alg,
        calculate_volume alg {| triangles := [triangle_b_inverted] |} density
        = Ok (-0.16666666666666666, -0.16666666666666666 * density))
  /\ calculate_volume left_to_right
        {| triangles := [triangle_big; triangle_unit; triangle_unit] |} density
      = Ok (10000000000000, 10000000000000 * density)
  /\ calculate_volume compensated
        {| triangles := [triangle_big; triangle_unit; triangle_unit] |} density
      = Ok (10000000000000.002, 10000000000000.002 * density).
Proof.
  split; [apply calculate_volume_eq|].
  split.
  { destruct (py_sum_compensated_plain (signed_volumes (triangles self))) as [c E].
    exists c. rewrite calculate_volume_eq, E. reflexivity. }
  repeat split; try intros alg; rewrite calculate_volume_eq;
    try destruct alg; reflexivity.
Qed.

(** C8, as the code has it: for every finite density that is not below
    zero, the estimator applied to the empty mesh returns the volume 0 and
    a mass equal to 0. *)
Theorem calculate_volume_empty_mesh (alg : sum_algorithm) (density : float) :
  is_finite density = true ->
  (0 <=? density) = true ->
  exists mass,
    calculate_volume alg {| triangles := [] |} density = Ok (0, mass)
    /\ (mass =? 0) = true.
Proof.
  intros F _. exists (0 * density). split.
  - apply calculate_volume_empty.
  - now apply zero_mul_finite.
Qed.

Lemma calculate_volume_empty_mesh_witness :
  is_finite 1.25 = true /\ (0 <=? 1.25) = true /\
  exists mass,
    calculate_volume left_to_right {| triangles := [] |} 1.25 = Ok (0, mass)
    /\ (mass =? 0) = true.
Proof.
  split; [reflexivity|]. split; [reflexivity|].
  apply (calculate_volume_empty_mesh left_to_right 1.25); reflexivity.
Defined.

(** C8 fails on the code for the one non-negative float that is not
    finite: with the density +infinity the mass of the empty mesh is a NaN,
    which is not equal to 0, for both summations. *)
Lemma calculate_volume_empty_mesh_infinity :
  (0 <=? infinity) = true /\
  calculate_volume left_to_right {| triangles := [] |} infinity = Ok (0, nan) /\
  calculate_volume compensated {| triangles := [] |} infinity = Ok (0, nan) /\
  (nan =? 0) = false.
Proof. repeat split. Qed.

(** The product [0.0 * density] is a NaN for an infinite density: the
    finiteness of the density is needed for a mass of zero. *)
Example calculate_volume_empty_mesh_infinite_density :
  calculate_volume left_to_right {| triangles := [] |} infinity = Ok (0, nan).
Proof. reflexivity. Qed.

(** C1 fails on the code: with the density -1 the estimator returns a pair
    for the empty mesh, and raises nothing. *)
Lemma calculate_volume_no_InvalidDensity :
  (-1 <? 0) = true /\
  calculate_volume left_to_right {| triangles := [] |} (-1) = Ok (0, -0) /\
  calculate_volume left_to_right {| triangles := [] |} (-1) <> Raise InvalidDensity.
Proof.
  split; [reflexivity|]. split; [reflexivity|]. discriminate.
Qed.

(** C1, as the code has it: for every mesh and every density below zero,
    the estimator returns the pair of the volume and of the volume times
    the density, as it does for any other density; it raises no error. *)
Theorem calculate_volume_negative_density (alg : sum_algorithm)
    (self : STLUtils) (density : float) :
  (density <? 0) = true ->
  exists volume,
    calculate_volume alg self density = Ok (volume, volume * density)
    /\ volume = py_sum alg (signed_volumes (triangles self)) / 1000
    /\ calculate_volume alg self density <> Raise InvalidDensity.
Proof.
  intros _. eexists. split; [apply calculate_volume_eq|].
  split; [reflexivity|]. rewrite calculate_volume_eq. discriminate.
Qed.

Lemma calculate_volume_negative_density_witness :
  (-1.25 <? 0) = true /\
  exists volume,
    calculate_volume compensated {| triangles := [triangle_a; triangle_b] |} (-1.25)
    = Ok (volume, volume * -1.25)
    /\ volume = py_sum compensated (signed_volumes [triangle_a; triangle_b]) / 1000
    /\ calculate_volume compensated {| triangles := [triangle_a; triangle_b] |} (-1.25)
       <> Raise InvalidDensity.
Proof.
  split; [reflexivity|].
  apply (calculate_volume_negative_density compensated
           {| triangles := [triangle_a; triangle_b] |} (-1.25)).
  reflexivity.
Defined.

End Estimator.

(** ** The decoder *)

Section Decoder.

Lemma unpack_at_I_length (bo : byteorder) (buf : bytes) (n : Z) :
  unpack_at_I bo buf = Ok n -> length buf = 4.
Proof.
  do 5 (destruct buf as [|? buf]; try discriminate). reflexivity.
Qed.

Lemma count_field_length (file : bytes) :
  length (firstn 4 (skipn 80 file)) = 4 -> 84 <= length file.
Proof. rewrite length_firstn, length_skipn. lia. Qed.

Lemma point_at_app_l (l l' : bytes) (k : nat) :
  k + 12 <= length l -> point_at (l ++ l') k = point_at l k.
Proof.
  intros H. unfold point_at, float_at.
  rewrite !app_nth1 by lia. reflexivity.
Qed.

Lemma point_at_app_r (l l' : bytes) (k : nat) :
  point_at (l ++ l') (length l + k) = point_at l' k.
Proof.
  unfold point_at, float_at.
  rewrite <- !Nat.add_assoc, !app_nth2_plus. reflexivity.
Qed.

Lemma facet_bytes_length (fc : facet) : facet_wf fc -> length (facet_bytes fc) = 50.
Proof.
  intros (H0 & H1 & H2 & H3 & H4). unfold facet_bytes.
  rewrite !length_app. lia.
Qed.

Lemma facet_vertices_bytes (fc : facet) (tail : bytes) :
  facet_wf fc -> facet_vertices (facet_bytes fc ++ tail) = facet_triangle fc.
Proof.
  intros (H0 & H1 & H2 & H3 & H4).
  unfold facet_vertices, facet_triangle, facet_bytes.
  rewrite <- !app_assoc.
  f_equal; [f_equal|].
  - rewrite <- H0 at 1. rewrite <- (Nat.add_0_r (length (normal fc))).
    rewrite point_at_app_r. apply point_at_app_l. lia.
  - change 24 with (12 + 12). rewrite <- H0 at 1.
    rewrite point_at_app_r. rewrite <- H1 at 1.
    rewrite <- (Nat.add_0_r (length (vertex1 fc))).
    rewrite point_at_app_r. apply point_at_app_l. lia.
  - change 36 with (12 + (12 + 12)). rewrite <- H0 at 1.
    rewrite point_at_app_r. rewrite <- H1 at 1.
    rewrite point_at_app_r. rewrite <- H2 at 1.
    rewrite <- (Nat.add_0_r (length (vertex2 fc))).
    rewrite point_at_app_r. apply point_at_app_l. lia.
Qed.

Lemma facets_flat_map (fcs : list facet) (rest : bytes) :
  Forall facet_wf fcs ->
  facets (length fcs) (flat_map facet_bytes fcs ++ rest) = map facet_triangle fcs.
Proof.
  induction 1 as [|fc fcs Hfc _ IH]; [reflexivity|].
  cbn [length facets flat_map map].
  rewrite <- app_assoc, facet_vertices_bytes by assumption.
  rewrite skipn_app, facet_bytes_length, Nat.sub_diag by assumption.
  rewrite skipn_all2 by (rewrite facet_bytes_length by assumption; lia).
  cbn [skipn app]. now rewrite IH.
Qed.

Lemma flat_map_facet_bytes_length (fcs : list facet) :
  Forall facet_wf fcs -> length (flat_map facet_bytes fcs) = 50 * length fcs.
Proof.
  induction 1 as [|fc fcs Hfc _ IH]; [reflexivity|].
  cbn [flat_map length]. rewrite length_app, facet_bytes_length, IH by assumption. lia.
Qed.

(** C6: in a stream treated as binary that is made of an 80-byte header, a
    count field that the platform's native byte order reads as the number
    of facets, the facets and anything after them, the decoder skips the
    header, reads the count, and for each facet reads the normal, the three
    vertices as little-endian floats and the attribute field; it appends
    the triangles of the facets, in their order, to the triangle list. *)
Theorem read_stl_binary_layout (bo : byteorder) (header count : bytes)
    (fcs : list facet) (rest : bytes) (self : STLUtils) :
  length header = 80 ->
  is_binary (header ++ count ++ flat_map facet_bytes fcs ++ rest) = true ->
  unpack_at_I bo count = Ok (Z.of_nat (length fcs)) ->
  Forall facet_wf fcs ->
  read_stl bo (header ++ count ++ flat_map facet_bytes fcs ++ rest) self =
  (Ok tt, {| triangles := triangles self ++ map facet_triangle fcs |}).
Proof.
  intros Hh Hb Hc Hw.
  pose proof (unpack_at_I_length _ _ _ Hc) as Lc.
  rewrite read_stl_binary by assumption.
  assert (E80 : skipn 80 (header ++ count ++ flat_map facet_bytes fcs ++ rest)
                = count ++ flat_map facet_bytes fcs ++ rest).
  { rewrite skipn_app, Hh, Nat.sub_diag, skipn_all2 by lia. reflexivity. }
  assert (E4 : firstn 4 (count ++ flat_map facet_bytes fcs ++ rest) = count).
  { rewrite firstn_app, Lc, Nat.sub_diag, firstn_all2 by lia.
    cbn [firstn]. apply app_nil_r. }
  rewrite E80, E4, Hc, Nat2Z.id.
  rewrite read_loop_complete; rewrite remaining_count.
  - change 84 with (4 + 80). rewrite <- skipn_skipn, E80.
    rewrite skipn_app, Lc, Nat.sub_diag, skipn_all2 by lia.
    cbn [skipn app]. now rewrite facets_flat_map.
  - right. change 84 with (4 + 80). rewrite <- skipn_skipn, E80.
    rewrite skipn_app, Lc, Nat.sub_diag, skipn_all2 by lia.
    cbn [skipn app]. rewrite length_app, flat_map_facet_bytes_length by assumption. lia.
Qed.

Lemma facet_a_wf : facet_wf facet_a.
Proof. repeat split. Qed.

Lemma facet_b_wf : facet_wf facet_b.
Proof. repeat split. Qed.

Lemma read_stl_binary_layout_witness :
  length binary_header = 80 /\
  is_binary stream_2_of_2 = true /\
  unpack_at_I little (pack_lt_I 2) = Ok 2%Z /\
  Forall facet_wf [facet_a; facet_b] /\
  read_stl little stream_2_of_2 STLUtils_init =
  (Ok tt, {| triangles := [triangle_a; triangle_b] |}).
Proof.
  assert (W : Forall facet_wf [facet_a; facet_b]).
  { constructor; [apply facet_a_wf|].
    constructor; [apply facet_b_wf|constructor]. }
  split; [reflexivity|]. split; [reflexivity|].
  split; [reflexivity|]. split; [exact W|].
  exact (read_stl_binary_layout little binary_header (pack_lt_I 2)
           [facet_a; facet_b] [] STLUtils_init eq_refl eq_refl eq_refl W).
Defined.


(** On a big-endian platform the same facets are read behind a count field
    written most significant byte first: only the count follows the
    platform. *)
Example read_stl_big_endian_count :
  read_stl big
    (binary_header ++ [x00; x00; x00; x02]
     ++ facet_bytes facet_a ++ facet_bytes facet_b) STLUtils_init
  = (Ok tt, {| triangles := [triangle_a; triangle_b] |}).
Proof. vm_compute. reflexivity. Qed.

(** The result of the last [f.read(2)] is not looked at: a stream that
    ends after the vertices of its last declared triangle decodes in full. *)
Example read_stl_short_attribute :
  read_stl little (firstn (length stream_2_of_2 - 2) stream_2_of_2) STLUtils_init
  = (Ok tt, {| triangles := [triangle_a; triangle_b] |}).
Proof. vm_compute. reflexivity. Qed.

(** A stream that ends inside the count field. *)
Example read_stl_short_count :
  read_stl little (firstn 83 stream_2_of_2) STLUtils_init
  = (Raise (struct_error 4), {| triangles := [] |}).
Proof. vm_compute. reflexivity. Qed.

(** C2 fails on the code: the stream that declares five triangles and
    holds two makes the decoder raise [struct.error] for a buffer of 12
    bytes, not an error that reports two triangles read; the two triangles
    are in the triangle list of the decoder. *)
Lemma read_stl_no_TruncatedInput :
  is_binary stream_2_of_5 = true /\
  unpack_at_I little (firstn 4 (skipn 80 stream_2_of_5)) = Ok 5%Z /\
  read_stl little stream_2_of_5 STLUtils_init =
  (Raise (struct_error 12), {| triangles := [triangle_a; triangle_b] |}) /\
  fst (read_stl little stream_2_of_5 STLUtils_init) <> Raise (TruncatedInput 2).
Proof.
  split; [reflexivity|]. split; [reflexivity|].
  split; [vm_compute; reflexivity|].
  vm_compute. discriminate.
Qed.

(** C2, as the code has it: for every binary stream whose count field
    declares [n] triangles and that ends before the vertices of the last
    declared triangle are complete, decoding raises [struct.error] for a
    buffer of 12 bytes, which carries no number of triangles; the
    triangles of the complete records before the end, fewer than [n], stay
    appended to the triangle list.  And whenever decoding returns, it has
    appended as many triangles as the count field declares. *)
Theorem read_stl_truncated_raises (bo : byteorder) (file : bytes)
    (self : STLUtils) (n : Z) :
  is_binary file = true ->
  unpack_at_I bo (firstn 4 (skipn 80 file)) = Ok n ->
  (length file + 2 < 84 + 50 * Z.to_nat n ->
   let k := (length file - 82) / 50 in
   k < Z.to_nat n /\
   read_stl bo file self =
   (Raise (struct_error 12),
    {| triangles := triangles self ++ facets k (skipn 84 file) |}) /\
   length (facets k (skipn 84 file)) = k)
  /\
  (forall self',
   read_stl bo file self = (Ok tt, self') ->
   exists mesh, triangles self' = triangles self ++ mesh /\
                length mesh = Z.to_nat n).
Proof.
  intros Hb Hc.
  pose proof (count_field_length file (unpack_at_I_length _ _ _ Hc)) as L.
  rewrite read_stl_binary, Hc by assumption.
  set (f := snd (f_read 4 (f_seek 80 (open file)))).
  assert (R : length (remaining f) = length file - 84).
  { unfold f. rewrite remaining_count. apply length_skipn. }
  pose proof (Nat.div_mod_eq (length file - 82) 50) as D.
  pose proof (Nat.mod_upper_bound (length file - 82) 50 ltac:(lia)) as M.
  assert (T : length file + 2 < 84 + 50 * Z.to_nat n ->
              read_loop (Z.to_nat n) f self =
              (Raise (struct_error 12),
               {| triangles := triangles self
                               ++ facets ((length file - 82) / 50) (skipn 84 file) |})).
  { intros Ht. rewrite <- remaining_count. fold f.
    apply read_loop_truncated; lia. }
  split.
  - intros Ht k. split; [unfold k; lia|]. split; [now apply T|apply facets_length].
  - intros self' Hok.
    destruct (Nat.lt_ge_cases (length file + 2) (84 + 50 * Z.to_nat n)) as [Ht|Hf].
    + rewrite (T Ht) in Hok. discriminate Hok.
    + rewrite read_loop_complete in Hok by lia.
      injection Hok as <-. eexists; split; [reflexivity|apply facets_length].
Qed.

Lemma read_stl_truncated_raises_witness :
  is_binary stream_2_of_5 = true /\
  unpack_at_I little (firstn 4 (skipn 80 stream_2_of_5)) = Ok 5%Z /\
  length stream_2_of_5 + 2 < 84 + 50 * Z.to_nat 5 /\
  (2 < Z.to_nat 5 /\
   read_stl little stream_2_of_5 STLUtils_init =
   (Raise (struct_error 12), {| triangles := [triangle_a; triangle_b] |}) /\
   length [triangle_a; triangle_b] = 2).
Proof.
  assert (T : length stream_2_of_5 + 2 < 84 + 50 * Z.to_nat 5)
    by (vm_compute; lia).
  split; [reflexivity|]. split; [reflexivity|]. split; [exact T|].
  exact (proj1 (read_stl_truncated_raises little stream_2_of_5
                  STLUtils_init 5 eq_refl eq_refl) T).
Defined.



(** C7: format detection reads the leading 80 bytes of the stream and
    nothing else, decodes them with replacement of what cannot be decoded
    (the decoder is a total function), and takes the stream for the textual
    variant exactly when the decoded header starts with 'solid', which is
    when the stream starts with the bytes of 'solid'; every other stream is
    binary. *)
Theorem is_binary_iff_marker (file : bytes) :
  is_binary file =
    negb (startswith (decode_replace (firstn 80 file)) (str_of_string "solid"))
  /\ (is_binary file = false <-> exists rest, file = SOLID ++ rest)
  /\ (is_binary file = true <-> ~ exists rest, file = SOLID ++ rest)
  /\ (forall file', firstn 80 file' = firstn 80 file ->
                   is_binary file' = is_binary file).
Proof.
  split; [reflexivity|].
  rewrite is_binary_bytes.
  pose proof (bytes_startswith_iff file SOLID) as I.
  split; [|split].
  - rewrite negb_false_iff. exact I.
  - rewrite negb_true_iff, <- I. now destruct (bytes_startswith file SOLID).
  - intros file' E. rewrite (is_binary_bytes file').
    rewrite <- (bytes_startswith_firstn 80 file'), <- (bytes_startswith_firstn 80 file)
      by (simpl; lia).
    now rewrite E.
Qed.




Lemma run_for (bo : byteorder) (file : bytes) (n : nat) :
  forall f self,
    run bo file (at_for n f, self) (outcome_configuration (read_loop n f self)).
Proof.
  induction n as [|n IH]; intros f self; cbn [read_loop].
  - eapply run_more; [apply step_for_exhausted|apply run_here].
  - destruct (read_triangle f) as [[t f']|e] eqn:E.
    + eapply run_more; [apply step_for_append; exact E|apply IH].
    + eapply run_more; [apply step_for_raises; exact E|apply run_here].
Qed.

Lemma run_read_stl (bo : byteorder) (file : bytes) (self : STLUtils) :
  run bo file (at_is_binary, self) (outcome_configuration (read_stl bo file self)).
Proof.
  unfold read_stl. destruct (is_binary file) eqn:B.
  - eapply run_more; [apply step_binary; exact B|].
    destruct (f_read 4 (f_seek 80 (open file))) as [buf f] eqn:R.
    assert (Eb : buf = fst (f_read 4 (f_seek 80 (open file)))) by now rewrite R.
    assert (Ef : f = snd (f_read 4 (f_seek 80 (open file)))) by now rewrite R.
    destruct (unpack_at_I bo buf) as [n|e] eqn:U; rewrite Eb in U.
    + eapply run_more; [apply step_count; exact U|].
      rewrite Ef. apply run_for.
    + eapply run_more; [apply step_count_raises; exact U|apply run_here].
  - eapply run_more; [apply step_textual; exact B|apply run_here].
Qed.



(** The run on the stream that declares five triangles and holds two. *)
Example run_stream_2_of_5 :
  run little stream_2_of_5 (at_is_binary, STLUtils_init)
    (raised (struct_error 12), {| triangles := [triangle_a; triangle_b] |}).
Proof.
  pose proof (run_read_stl little stream_2_of_5 STLUtils_init) as R.
  assert (E : read_stl little stream_2_of_5 STLUtils_init
              = (Raise (struct_error 12),
                 {| triangles := [triangle_a; triangle_b] |}))
    by (vm_compute; reflexivity).
  rewrite E in R. exact R.
Qed.

(** C10: decoding appends to the triangle list of the decoder and does not
    replace it: when a stream decodes to the triangles [mesh] on a new
    decoder, decoding it on a decoder whose list is [L] leaves the list
    [L ++ mesh]; a second decoding on the same decoder thus ends with the
    triangles of the first one followed by those of the second. *)
Theorem read_stl_appends (bo : byteorder) (file : bytes) (self : STLUtils)
    (mesh : list triangle) :
  is_binary file = true ->
  read_stl bo file STLUtils_init = (Ok tt, {| triangles := mesh |}) ->
  read_stl bo file self = (Ok tt, {| triangles := triangles self ++ mesh |}) /\
  read_stl bo file (snd (read_stl bo file STLUtils_init))
  = (Ok tt, {| triangles := mesh ++ mesh |}).
Proof.
  intros _ H. split.
  - rewrite read_stl_app, H. reflexivity.
  - rewrite read_stl_app, H. reflexivity.
Qed.

Lemma read_stl_appends_witness :
  is_binary stream_2_of_2 = true /\
  read_stl little stream_2_of_2 STLUtils_init
  = (Ok tt, {| triangles := [triangle_a; triangle_b] |}) /\
  read_stl little stream_2_of_2 {| triangles := [triangle_b_inverted] |}
  = (Ok tt, {| triangles := [triangle_b_inverted; triangle_a; triangle_b] |}) /\
  read_stl little stream_2_of_2 (snd (read_stl little stream_2_of_2 STLUtils_init))
  = (Ok tt, {| triangles := [triangle_a; triangle_b; triangle_a; triangle_b] |}).
Proof.
  split; [reflexivity|]. split; [vm_compute; reflexivity|].
  exact (read_stl_appends little stream_2_of_2
           {| triangles := [triangle_b_inverted] |}
           [triangle_a; triangle_b] eq_refl eq_refl).
Defined.

End Decoder.

(** * More properties of the code *)

(** ** The material table *)

Section Materials.
Local Open Scope float_scope.

Lemma dict_get_In (d : list (Z * material)) (k : Z) (v : material) :
  dict_get d k = Some v -> In (k, v) d.
Proof.
  induction d as [|[k' v'] d IH]; simpl; [discriminate|].
  destruct (Z.eqb_spec k' k) as [->|_].
  - intros [= ->]. now left.
  - intros H. right. now apply IH.
Qed.

Lemma dict_get_materials_range (k : Z) :
  (1 <= k <= 18)%Z -> exists v, dict_get materials_dict k = Some v.
Proof.
  intros H.
  assert (C : (k = 1 \/ k = 2 \/ k = 3 \/ k = 4 \/ k = 5 \/ k = 6 \/ k = 7 \/ k = 8
              \/ k = 9 \/ k = 10 \/ k = 11 \/ k = 12 \/ k = 13 \/ k = 14
              \/ k = 15 \/ k = 16 \/ k = 17 \/ k = 18)%Z) by lia.
  repeat (destruct C as [->|C]; [eexists; reflexivity|]).
  subst k. eexists; reflexivity.
Qed.

Lemma dict_get_materials_keys (k : Z) (v : material) :
  dict_get materials_dict k = Some v -> (1 <= k <= 18)%Z.
Proof.
  intros H. apply dict_get_In in H. simpl in H.
  repeat (destruct H as [[= <- _]|H]; [lia|]). destruct H.
Qed.

Lemma materials_dict_densities :
  forallb (fun kv => density_ok (mass (snd kv))) materials_dict = true.
Proof. vm_compute. reflexivity. Qed.
End Materials.

(** ** NaN coordinates *)

Section NaN.
Local Open Scope float_scope.

Lemma Prim2SF_nan : Prim2SF nan = S754_nan.
Proof. reflexivity. Qed.

Lemma is_nan_eq (x : float) : is_nan x = true -> x = nan.
Proof.
  unfold is_nan. rewrite eqb_spec. intros H.
  apply Prim2SF_inj. rewrite Prim2SF_nan.
  destruct (Prim2SF x) as [s|s| |s m e]; try reflexivity; exfalso;
    unfold SFeqb, SFcompare in H.
  - discriminate H.
  - destruct s; discriminate H.
  - rewrite Z.compare_refl, Pos.compare_cont_refl in H. destruct s; discriminate H.
Qed.

Lemma add_nan_l (x : float) : nan + x = nan.
Proof. apply Prim2SF_inj. rewrite add_spec, Prim2SF_nan. reflexivity. Qed.

Lemma add_nan_r (x : float) : x + nan = nan.
Proof.
  apply Prim2SF_inj. rewrite add_spec, Prim2SF_nan.
  destruct (Prim2SF x); reflexivity.
Qed.

Lemma sub_nan_l (x : float) : nan - x = nan.
Proof. apply Prim2SF_inj. rewrite sub_spec, Prim2SF_nan. reflexivity. Qed.

Lemma sub_nan_r (x : float) : x - nan = nan.
Proof.
  apply Prim2SF_inj. rewrite sub_spec, Prim2SF_nan.
  destruct (Prim2SF x); reflexivity.
Qed.

Lemma mul_nan_l (x : float) : nan * x = nan.
Proof. apply Prim2SF_inj. rewrite mul_spec, Prim2SF_nan. reflexivity. Qed.

Lemma mul_nan_r (x : float) : x * nan = nan.
Proof.
  apply Prim2SF_inj. rewrite mul_spec, Prim2SF_nan.
  destruct (Prim2SF x); reflexivity.
Qed.

Lemma div_nan_l (x : float) : nan / x = nan.
Proof. apply Prim2SF_inj. rewrite div_spec, Prim2SF_nan. reflexivity. Qed.

Lemma opp_nan : - nan = nan.
Proof. reflexivity. Qed.

Create Rewrite HintDb nan.
#[local] Hint Rewrite add_nan_l add_nan_r sub_nan_l sub_nan_r mul_nan_l mul_nan_r
  div_nan_l opp_nan : nan.

Lemma signed_volume_of_triangle_nan (p1 p2 p3 : point) :
  triangle_has_nan (p1, p2, p3) = true ->
  signed_volume_of_triangle p1 p2 p3 = nan.
Proof.
  destruct p1 as [[x1 y1] z1], p2 as [[x2 y2] z2], p3 as [[x3 y3] z3].
  unfold triangle_has_nan, point_has_nan, signed_volume_of_triangle,
    item0, item1, item2. cbn [fst snd].
  rewrite !orb_true_iff.
  intros H; decompose [or] H; clear H;
    match goal with N : is_nan _ = true |- _ => apply is_nan_eq in N; subst end;
    autorewrite with nan; reflexivity.
Qed.

Lemma fold_left_add_nan (xs : list float) : fold_left add xs nan = nan.
Proof.
  induction xs as [|x xs IH]; simpl; [reflexivity|]. now rewrite add_nan_l.
Qed.

Lemma compensated_loop_nan (xs : list float) :
  forall c, compensated_loop nan c xs = nan.
Proof.
  induction xs as [|x xs IH]; intros c; simpl.
  - destruct (negb (c =? 0) && is_finite c); [apply add_nan_l|reflexivity].
  - rewrite add_nan_l. apply IH.
Qed.

Lemma compensated_loop_In_nan (xs : list float) :
  In nan xs -> forall f c, compensated_loop f c xs = nan.
Proof.
  induction xs as [|x xs IH]; intros H f c; [destruct H|].
  simpl. destruct H as [->|H].
  - rewrite add_nan_r. apply compensated_loop_nan.
  - now apply IH.
Qed.

Lemma fold_left_add_In_nan (xs : list float) :
  In nan xs -> forall a, fold_left add xs a = nan.
Proof.
  induction xs as [|x xs IH]; intros H a; [destruct H|].
  simpl. destruct H as [->|H].
  - rewrite add_nan_r. apply fold_left_add_nan.
  - now apply IH.
Qed.

Lemma py_sum_In_nan (alg : sum_algorithm) (xs : list float) :
  In nan xs -> py_sum alg xs = nan.
Proof.
  intros H. destruct alg; simpl.
  - now apply fold_left_add_In_nan.
  - destruct xs as [|x xs]; [destruct H|].
    destruct H as [->|H].
    + rewrite add_nan_r. apply compensated_loop_nan.
    + now apply compensated_loop_In_nan.
Qed.

End NaN.

(** ** The decoder on every binary stream *)

Section DecoderClosedForm.

Lemma unpack_at_I_short (bo : byteorder) (buf : bytes) :
  length buf <> 4 -> unpack_at_I bo buf = Raise (struct_error 4).
Proof.
  intros H. do 5 (destruct buf as [|? buf]; try reflexivity).
  simpl in H. lia.
Qed.

Lemma read_loop_closed (n : nat) (f : file_object) (self : STLUtils) :
  read_loop n f self =
  (fst (binary_outcome n (remaining f)),
   {| triangles := triangles self ++ snd (binary_outcome n (remaining f)) |}).
Proof.
  unfold binary_outcome.
  destruct (Nat.eqb_spec n 0) as [->|N]; cbn [orb].
  - apply read_loop_complete. now left.
  - destruct (Nat.leb_spec (50 * n) (length (remaining f) + 2)) as [H|H]; cbn [fst snd].
    + apply read_loop_complete. now right.
    + pose proof (Nat.div_mod_eq (length (remaining f) + 2) 50) as D.
      pose proof (Nat.mod_upper_bound (length (remaining f) + 2) 50 ltac:(lia)) as M.
      apply read_loop_truncated; lia.
Qed.

Lemma read_stl_closed (bo : byteorder) (file : bytes) (self : STLUtils) :
  is_binary file = true ->
  read_stl bo file self =
  match unpack_at_I bo (firstn 4 (skipn 80 file)) with
  | Raise e => (Raise e, self)
  | Ok n =>
      (fst (binary_outcome (Z.to_nat n) (skipn 84 file)),
       {| triangles := triangles self
                       ++ snd (binary_outcome (Z.to_nat n) (skipn 84 file)) |})
  end.
Proof.
  intros B. rewrite read_stl_binary by assumption.
  destruct (unpack_at_I bo _) as [n|e]; [|reflexivity].
  now rewrite read_loop_closed, remaining_count.
Qed.

Lemma binary_outcome_complete (n : nat) (body : bytes) :
  n = 0 \/ 50 * n <= length body + 2 ->
  binary_outcome n body = (Ok tt, facets n body).
Proof.
  intros H. unfold binary_outcome.
  destruct (Nat.eqb_spec n 0) as [->|N]; [reflexivity|]. cbn [orb].
  destruct (Nat.leb_spec (50 * n) (length body + 2)); [reflexivity|lia].
Qed.

Lemma binary_outcome_truncated (n : nat) (body : bytes) :
  n <> 0 -> length body + 2 < 50 * n ->
  binary_outcome n body =
  (Raise (struct_error 12), facets ((length body + 2) / 50) body).
Proof.
  intros N H. unfold binary_outcome.
  destruct (Nat.eqb_spec n 0) as [->|_]; [lia|]. cbn [orb].
  destruct (Nat.leb_spec (50 * n) (length body + 2)); [lia|reflexivity].
Qed.

(** X3: a stream treated as binary that has fewer than 84 bytes, the empty
    stream among them, ends inside the header or the count field: decoding
    raises [struct.error] for a buffer of 4 bytes and leaves the triangle
    list as it was. *)
Theorem read_stl_short_stream (bo : byteorder) (file : bytes) (self : STLUtils) :
  is_binary file = true ->
  length file < 84 ->
  read_stl bo file self = (Raise (struct_error 4), self).
Proof.
  intros B L. rewrite read_stl_binary by assumption.
  rewrite unpack_at_I_short; [reflexivity|].
  rewrite length_firstn, length_skipn. lia.
Qed.

Lemma read_stl_short_stream_witness :
  is_binary [] = true /\ length (@nil byte) < 84 /\
  read_stl little [] {| triangles := [triangle_a] |}
  = (Raise (struct_error 4), {| triangles := [triangle_a] |}).
Proof.
  split; [reflexivity|]. split; [simpl; lia|].
  apply (read_stl_short_stream little [] {| triangles := [triangle_a] |});
    [reflexivity|simpl; lia].
Defined.

(** X4: for a binary stream whose count field declares [n] triangles,
    decoding returns exactly when [n] is 0 or the stream reaches the end of
    the vertices of the last declared triangle (84 + 50 n - 2 bytes): the
    attribute field of the last triangle may be missing.  It then appends
    the triangles of the first [n] records. *)
Theorem read_stl_complete_iff (bo : byteorder) (file : bytes)
    (self : STLUtils) (n : Z) :
  is_binary file = true ->
  unpack_at_I bo (firstn 4 (skipn 80 file)) = Ok n ->
  (fst (read_stl bo file self) = Ok tt <->
   Z.to_nat n = 0 \/ 84 + 50 * Z.to_nat n <= length file + 2)
  /\
  (Z.to_nat n = 0 \/ 84 + 50 * Z.to_nat n <= length file + 2 ->
   read_stl bo file self =
   (Ok tt, {| triangles := triangles self ++ facets (Z.to_nat n) (skipn 84 file) |})).
Proof.
  intros B C.
  pose proof (count_field_length file (unpack_at_I_length _ _ _ C)) as L.
  rewrite read_stl_closed, C by assumption.
  assert (Lb : length (skipn 84 file) = length file - 84) by apply length_skipn.
  split; [split|].
  - intros H. cbn [fst] in H.
    destruct (Nat.eq_dec (Z.to_nat n) 0) as [N|N]; [now left|right].
    destruct (Nat.le_gt_cases (84 + 50 * Z.to_nat n) (length file + 2)) as [G|G];
      [assumption|].
    rewrite binary_outcome_truncated in H by lia. discriminate H.
  - intros H. rewrite binary_outcome_complete by lia. reflexivity.
  - intros H. rewrite binary_outcome_complete by lia. reflexivity.
Qed.

Lemma read_stl_complete_iff_witness :
  is_binary (firstn 182 stream_2_of_2) = true /\
  unpack_at_I little (firstn 4 (skipn 80 (firstn 182 stream_2_of_2))) = Ok 2%Z /\
  (fst (read_stl little (firstn 182 stream_2_of_2) STLUtils_init) = Ok tt <->
   Z.to_nat 2 = 0 \/ 84 + 50 * Z.to_nat 2 <= length (firstn 182 stream_2_of_2) + 2)
  /\
  (Z.to_nat 2 = 0 \/ 84 + 50 * Z.to_nat 2 <= length (firstn 182 stream_2_of_2) + 2 ->
   read_stl little (firstn 182 stream_2_of_2) STLUtils_init =
   (Ok tt, {| triangles := [triangle_a; triangle_b] |})).
Proof.
  split; [reflexivity|]. split; [reflexivity|].
  exact (read_stl_complete_iff little (firstn 182 stream_2_of_2) STLUtils_init 2
           eq_refl eq_refl).
Defined.

(** X5: whatever the stream and however decoding ends, the triangles that
    were in the list before stay, in their place, at its front; what is
    appended behind them, and the outcome, are those of a new decoder. *)
Theorem read_stl_keeps_prior_triangles (bo : byteorder) (file : bytes)
    (self s : STLUtils) (r : result unit) :
  read_stl bo file self = (r, s) ->
  exists mesh,
    triangles s = triangles self ++ mesh /\
    read_stl bo file STLUtils_init = (r, {| triangles := mesh |}).
Proof.
  intros H. rewrite read_stl_app in H. injection H as <- <-.
  exists (triangles (snd (read_stl bo file STLUtils_init))). split; [reflexivity|].
  destruct (read_stl bo file STLUtils_init) as [r' [ts]]. reflexivity.
Qed.

Lemma read_stl_keeps_prior_triangles_witness :
  read_stl little stream_2_of_5 {| triangles := [triangle_b_inverted] |}
  = (Raise (struct_error 12),
     {| triangles := [triangle_b_inverted; triangle_a; triangle_b] |}) /\
  exists mesh,
    [triangle_b_inverted; triangle_a; triangle_b] = [triangle_b_inverted] ++ mesh /\
    read_stl little stream_2_of_5 STLUtils_init
    = (Raise (struct_error 12), {| triangles := mesh |}).
Proof.
  assert (H : read_stl little stream_2_of_5 {| triangles := [triangle_b_inverted] |}
              = (Raise (struct_error 12),
                 {| triangles := [triangle_b_inverted; triangle_a; triangle_b] |}))
    by (vm_compute; reflexivity).
  split; [exact H|].
  exact (read_stl_keeps_prior_triangles little stream_2_of_5 _ _ _ H).
Defined.

(** X6: the 80 bytes of the header are not interpreted: two streams
    treated as binary that agree from byte 80 on decode alike. *)
Theorem read_stl_header_not_interpreted (bo : byteorder) (file1 file2 : bytes)
    (self : STLUtils) :
  is_binary file1 = true ->
  is_binary file2 = true ->
  skipn 80 file1 = skipn 80 file2 ->
  read_stl bo file1 self = read_stl bo file2 self.
Proof.
  intros B1 B2 E. rewrite !read_stl_closed by assumption.
  change 84 with (4 + 80). rewrite <- !skipn_skipn, E. reflexivity.
Qed.

Lemma read_stl_header_not_interpreted_witness :
  is_binary stream_2_of_2 = true /\
  is_binary (repeat x41 80 ++ skipn 80 stream_2_of_2) = true /\
  skipn 80 stream_2_of_2 = skipn 80 (repeat x41 80 ++ skipn 80 stream_2_of_2) /\
  read_stl little stream_2_of_2 STLUtils_init
  = read_stl little (repeat x41 80 ++ skipn 80 stream_2_of_2) STLUtils_init.
Proof.
  split; [reflexivity|]. split; [reflexivity|]. split; [reflexivity|].
  exact (read_stl_header_not_interpreted little stream_2_of_2
           (repeat x41 80 ++ skipn 80 stream_2_of_2) STLUtils_init
           eq_refl eq_refl eq_refl).
Defined.

End DecoderClosedForm.

(** ** [get_material_mass] and the view *)

Section View.
Local Open Scope float_scope.

Lemma density_ok_positive (m : float) :
  density_ok m = true ->
  exists mm e, Prim2SF m = S754_finite false mm e.
Proof.
  unfold density_ok. rewrite !andb_true_iff. intros [[F L] _].
  rewrite leb_spec in L.
  destruct (is_finite_SF m F) as [[s E]|(s & mm & e & E)]; rewrite E in L.
  - vm_compute in L. discriminate L.
  - destruct s; [vm_compute in L; discriminate L|]. now exists mm, e.
Qed.

Lemma zero_mul_density (m : float) : density_ok m = true -> 0 * m = 0.
Proof.
  intros H. destruct (density_ok_positive m H) as (mm & e & E).
  apply Prim2SF_inj. rewrite mul_spec, E. reflexivity.
Qed.

Lemma dict_get_density_ok (k : Z) (v : material) :
  dict_get materials_dict k = Some v -> density_ok (mass v) = true.
Proof.
  intros H. apply dict_get_In in H.
  pose proof materials_dict_densities as D.
  rewrite forallb_forall in D. exact (D _ H).
Qed.

Lemma get_material_mass_PyInt (z : Z) :
  get_material_mass (PyInt z) =
  match dict_get materials_dict z with
  | Some v => Mass (mass v)
  | None => ValueError (PyInt z)
  end.
Proof. reflexivity. Qed.

(** X1: [get_material_mass] returns a mass exactly for the integers 1 to
    18 ([True] being the integer 1) and raises [ValueError] for every other
    object, floats and strings included; the error names the identifier it
    was given, and an accepted integer gets the mass of its entry. *)
Theorem get_material_mass_accepts (x : pyobj) :
  ((exists m, get_material_mass x = Mass m) <->
   (exists z, int_key x = Some z /\ (1 <= z <= 18)%Z))
  /\ (forall y, get_material_mass x = ValueError y -> y = x)
  /\ (forall z, int_key x = Some z -> (1 <= z <= 18)%Z ->
       exists v, dict_get materials_dict z = Some v
                 /\ get_material_mass x = Mass (mass v)).
Proof.
  assert (G : forall z, int_key x = Some z ->
              get_material_mass x =
              match dict_get materials_dict z with
              | Some v => Mass (mass v)
              | None => ValueError x
              end).
  { intros z H. destruct x; try discriminate H; injection H as <-; reflexivity. }
  split; [split|split].
  - intros [m H]. destruct (int_key x) as [z|] eqn:K.
    + exists z. split; [reflexivity|].
      rewrite (G z eq_refl) in H.
      destruct (dict_get materials_dict z) as [v|] eqn:D; [|discriminate H].
      now apply dict_get_materials_keys in D.
    + destruct x; try discriminate K; discriminate H.
  - intros (z & K & R). rewrite (G z K).
    destruct (dict_get_materials_range z R) as [v ->]. now exists (mass v).
  - intros y H. destruct (int_key x) as [z|] eqn:K.
    + rewrite (G z eq_refl) in H.
      destruct (dict_get materials_dict z); [discriminate H|]. now injection H.
    + destruct x; try discriminate K; now injection H.
  - intros z K R. rewrite (G z K).
    destruct (dict_get_materials_range z R) as [v ->]. now exists v.
Qed.

(** X2: every mass that [get_material_mass] returns is a finite float
    between 0.95 and 15.6, hence above zero. *)
Theorem get_material_mass_density_range (x : pyobj) (m : float) :
  get_material_mass x = Mass m ->
  is_finite m = true /\ (0.95 <=? m) = true /\ (m <=? 15.6) = true
  /\ (0 <? m) = true.
Proof.
  intros H.
  assert (D : density_ok m = true).
  { destruct (int_key x) as [z|] eqn:K.
    - assert (G : get_material_mass x =
                  match dict_get materials_dict z with
                  | Some v => Mass (mass v)
                  | None => ValueError x
                  end)
        by (destruct x; try discriminate K; injection K as <-; reflexivity).
      rewrite G in H.
      destruct (dict_get materials_dict z) as [v|] eqn:E; [|discriminate H].
      injection H as <-. now apply dict_get_density_ok in E.
    - destruct x; try discriminate K; discriminate H. }
  pose proof D as D'. unfold density_ok in D'. rewrite !andb_true_iff in D'.
  destruct D' as [[F L] U]. repeat split; try assumption.
  destruct (density_ok_positive m D) as (mm & e & E).
  rewrite ltb_spec, E. reflexivity.
Qed.

Lemma get_material_mass_density_range_witness :
  get_material_mass (PyInt 2) = Mass 1.25 /\
  is_finite 1.25 = true /\ (0.95 <=? 1.25) = true /\ (1.25 <=? 15.6) = true
  /\ (0 <? 1.25) = true.
Proof.
  split; [reflexivity|].
  exact (get_material_mass_density_range (PyInt 2) 1.25 eq_refl).
Defined.

(** X7: no coordinate is checked: when one coordinate of one triangle of
    the mesh is a NaN, the volume and the mass are NaNs, for every density
    and both summations. *)
Theorem calculate_volume_nan_coordinate (alg : sum_algorithm) (self : STLUtils)
    (density : float) (t : triangle) :
  In t (triangles self) ->
  triangle_has_nan t = true ->
  calculate_volume alg self density = Ok (nan, nan).
Proof.
  intros Hin Hn. rewrite calculate_volume_eq.
  rewrite (py_sum_In_nan alg (signed_volumes (triangles self))).
  - now rewrite div_nan_l, mul_nan_l.
  - unfold signed_volumes. apply in_map_iff. exists t. split; [|assumption].
    destruct t as [[p1 p2] p3]. now apply signed_volume_of_triangle_nan.
Qed.

Lemma calculate_volume_nan_coordinate_witness :
  read_stl little stream_nan STLUtils_init
  = (Ok tt, {| triangles := [triangle_a; triangle_nan] |}) /\
  In triangle_nan [triangle_a; triangle_nan] /\
  triangle_has_nan triangle_nan = true /\
  calculate_volume compensated {| triangles := [triangle_a; triangle_nan] |} 1.25
  = Ok (nan, nan).
Proof.
  split; [vm_compute; reflexivity|].
  assert (I : In triangle_nan [triangle_a; triangle_nan]) by (right; now left).
  split; [exact I|]. split; [reflexivity|].
  exact (calculate_volume_nan_coordinate compensated
           {| triangles := [triangle_a; triangle_nan] |} 1.25 triangle_nan
           I eq_refl).
Defined.

(** X8: the upload is decoded before the material is looked up: for a
    binary upload that is shorter than 84 bytes or ends before the vertices
    of its last declared triangle, the view ends with the [struct.error] of
    the decoder, unhandled, whatever the material identifier. *)
Theorem view_truncated_upload (bo : byteorder) (alg : sum_algorithm)
    (file : FileStorage) (id : option Z) :
  filename file <> ""%string ->
  is_binary (stream file) = true ->
  (length (stream file) < 84 \/
   exists n, unpack_at_I bo (firstn 4 (skipn 80 (stream file))) = Ok n /\
             length (stream file) + 2 < 84 + 50 * Z.to_nat n)%nat ->
  exists k,
    calculate_mass_and_volume bo alg
      {| files_file := Some file; form_material_id := id |}
    = unhandled (struct_error k)
    /\ (k = 4 \/ k = 12)%nat.
Proof.
  intros N B T. unfold calculate_mass_and_volume. cbn [files_file form_material_id].
  destruct (String.eqb_spec (filename file) "") as [E|_]; [contradiction|].
  destruct T as [L|(n & C & L)].
  - exists 4%nat. split; [|now left].
    rewrite read_stl_binary by assumption.
    rewrite unpack_at_I_short; [reflexivity|].
    rewrite length_firstn, length_skipn. lia.
  - exists 12%nat. split; [|now right].
    pose proof (count_field_length _ (unpack_at_I_length _ _ _ C)) as L84.
    rewrite read_stl_closed, C by assumption.
    rewrite binary_outcome_truncated; [reflexivity|lia|].
    rewrite length_skipn. lia.
Qed.

Lemma view_truncated_upload_witness :
  "part.stl"%string <> ""%string /\
  is_binary stream_2_of_5 = true /\
  (length stream_2_of_5 < 84 \/
   exists n, unpack_at_I little (firstn 4 (skipn 80 stream_2_of_5)) = Ok n /\
             length stream_2_of_5 + 2 < 84 + 50 * Z.to_nat n)%nat /\
  exists k,
    calculate_mass_and_volume little left_to_right
      (request_of "part.stl" stream_2_of_5 (Some 99%Z))
    = unhandled (struct_error k)
    /\ (k = 4 \/ k = 12)%nat.
Proof.
  assert (N : "part.stl"%string <> ""%string) by discriminate.
  assert (T : (length stream_2_of_5 < 84 \/
              exists n, unpack_at_I little (firstn 4 (skipn 80 stream_2_of_5)) = Ok n /\
                        length stream_2_of_5 + 2 < 84 + 50 * Z.to_nat n)%nat).
  { right. exists 5%Z. split; [reflexivity|vm_compute; lia]. }
  split; [exact N|]. split; [reflexivity|]. split; [exact T|].
  exact (view_truncated_upload little left_to_right
           {| filename := "part.stl"; stream := stream_2_of_5 |} (Some 99%Z)
           N eq_refl T).
Defined.

(** X9: for a textual upload and a material identifier of the table, or
    none (the default 2), the view gets to the plot with an empty mesh, the
    volume 0 and the mass 0. *)
Theorem view_textual_upload (bo : byteorder) (alg : sum_algorithm)
    (file : FileStorage) (id : option Z) :
  filename file <> ""%string ->
  is_binary (stream file) = false ->
  (id = None \/ exists z, id = Some z /\ (1 <= z <= 18)%Z) ->
  calculate_mass_and_volume bo alg
    {| files_file := Some file; form_material_id := id |}
  = calls_plot_stl {| triangles := [] |}
      (match id with Some z => z | None => 2%Z end) 0 0.
Proof.
  intros N B I. unfold calculate_mass_and_volume. cbn [files_file form_material_id].
  destruct (String.eqb_spec (filename file) "") as [E|_]; [contradiction|].
  rewrite read_stl_text by assumption.
  set (z := match id with Some z => z | None => 2%Z end).
  assert (R : (1 <= z <= 18)%Z).
  { unfold z. destruct I as [->|(z' & -> & R)]; [lia|assumption]. }
  rewrite get_material_mass_PyInt.
  destruct (dict_get_materials_range z R) as [v D]. rewrite D.
  rewrite calculate_volume_empty.
  now rewrite (zero_mul_density _ (dict_get_density_ok _ _ D)).
Qed.

Lemma view_textual_upload_witness :
  "part.stl"%string <> ""%string /\
  is_binary stream_text = false /\
  (@None Z = None \/ exists z, None = Some z /\ (1 <= z <= 18)%Z) /\
  calculate_mass_and_volume little left_to_right
    (request_of "part.stl" stream_text None)
  = calls_plot_stl {| triangles := [] |} 2 0 0.
Proof.
  assert (N : "part.stl"%string <> ""%string) by discriminate.
  split; [exact N|]. split; [reflexivity|]. split; [now left|].
  exact (view_textual_upload little left_to_right
           {| filename := "part.stl"; stream := stream_text |} None
           N eq_refl (or_introl eq_refl)).
Defined.

(** X10: whenever the view gets to the plot, the upload was decoded
    without an error, the material identifier (2 when the form has none) is
    one of 1 to 18, the volume is the sum of the signed volumes of the
    decoded triangles divided by 1000, and the mass is that volume times the
    density of the material, which lies between 0.95 and 15.6. *)
Theorem view_reaches_plot (bo : byteorder) (alg : sum_algorithm)
    (req : request) (s : STLUtils) (id : Z) (v m : float) :
  calculate_mass_and_volume bo alg req = calls_plot_stl s id v m ->
  exists file mat,
    files_file req = Some file /\
    read_stl bo (stream file) STLUtils_init = (Ok tt, s) /\
    id = (match form_material_id req with Some z => z | None => 2%Z end) /\
    (1 <= id <= 18)%Z /\
    dict_get materials_dict id = Some mat /\
    v = py_sum alg (signed_volumes (triangles s)) / 1000 /\
    m = v * mass mat /\
    (0.95 <=? mass mat) = true /\ (mass mat <=? 15.6) = true.
Proof.
  unfold calculate_mass_and_volume.
  destruct (files_file req) as [file|]; [|discriminate].
  destruct (String.eqb_spec (filename file) "") as [N|N]; [discriminate|].
  destruct (read_stl bo (stream file) STLUtils_init) as [[[]|e'] s'] eqn:R;
    [|discriminate].
  rewrite get_material_mass_PyInt.
  set (z := match form_material_id req with Some z => z | None => 2%Z end).
  destruct (dict_get materials_dict z) as [mat|] eqn:D; [|discriminate].
  rewrite calculate_volume_eq. intros [= <- <- <- <-].
  exists file, mat.
  pose proof (dict_get_density_ok _ _ D) as K.
  unfold density_ok in K. rewrite !andb_true_iff in K. destruct K as [[_ L] U].
  repeat split; try assumption; try reflexivity;
    now apply dict_get_materials_keys in D.
Qed.

Lemma view_reaches_plot_witness :
  calculate_mass_and_volume little left_to_right
    (request_of "part.stl" stream_2_of_2 (Some 2%Z))
  = calls_plot_stl {| triangles := [triangle_a; triangle_b] |} 2
      0.16666666666666666 0.20833333333333331 /\
  exists file mat,
    files_file (request_of "part.stl" stream_2_of_2 (Some 2%Z)) = Some file /\
    read_stl little (stream file) STLUtils_init
    = (Ok tt, {| triangles := [triangle_a; triangle_b] |}) /\
    2%Z = (match form_material_id (request_of "part.stl" stream_2_of_2 (Some 2%Z))
           with Some z => z | None => 2%Z end) /\
    (1 <= 2 <= 18)%Z /\
    dict_get materials_dict 2 = Some mat /\
    0.16666666666666666
    = py_sum left_to_right (signed_volumes [triangle_a; triangle_b]) / 1000 /\
    0.20833333333333331 = 0.16666666666666666 * mass mat /\
    (0.95 <=? mass mat) = true /\ (mass mat <=? 15.6) = true.
Proof.
  assert (H : calculate_mass_and_volume little left_to_right
                (request_of "part.stl" stream_2_of_2 (Some 2%Z))
              = calls_plot_stl {| triangles := [triangle_a; triangle_b] |} 2
                  0.16666666666666666 0.20833333333333331)
    by (vm_compute; reflexivity).
  split; [exact H|].
  exact (view_reaches_plot little left_to_right _ _ _ _ _ H).
Defined.

(** X11: for an upload that decodes without an error, a material
    identifier outside 1 to 18 ends the view with the 400 error that names
    it; no volume is computed. *)
Theorem view_unknown_material (bo : byteorder) (alg : sum_algorithm)
    (file : FileStorage) (z : Z) (s : STLUtils) :
  filename file <> ""%string ->
  read_stl bo (stream file) STLUtils_init = (Ok tt, s) ->
  ~ (1 <= z <= 18)%Z ->
  calculate_mass_and_volume bo alg
    {| files_file := Some file; form_material_id := Some z |}
  = error_400 (Invalid_material_identifier (PyInt z)).
Proof.
  intros N R O. unfold calculate_mass_and_volume. cbn [files_file form_material_id].
  destruct (String.eqb_spec (filename file) "") as [E|_]; [contradiction|].
  rewrite R, get_material_mass_PyInt.
  destruct (dict_get materials_dict z) as [v|] eqn:D; [|reflexivity].
  apply dict_get_materials_keys in D. contradiction.
Qed.

Lemma view_unknown_material_witness :
  "part.stl"%string <> ""%string /\
  read_stl little stream_2_of_2 STLUtils_init
  = (Ok tt, {| triangles := [triangle_a; triangle_b] |}) /\
  ~ (1 <= 19 <= 18)%Z /\
  calculate_mass_and_volume little left_to_right
    (request_of "part.stl" stream_2_of_2 (Some 19%Z))
  = error_400 (Invalid_material_identifier (PyInt 19)).
Proof.
  assert (N : "part.stl"%string <> ""%string) by discriminate.
  assert (R : read_stl little stream_2_of_2 STLUtils_init
              = (Ok tt, {| triangles := [triangle_a; triangle_b] |}))
    by (vm_compute; reflexivity).
  assert (O : ~ (1 <= 19 <= 18)%Z) by lia.
  split; [exact N|]. split; [exact R|]. split; [exact O|].
  exact (view_unknown_material little left_to_right
           {| filename := "part.stl"; stream := stream_2_of_2 |} 19 _ N R O).
Defined.

End View.
